(** * mykonos-agent: a shallow embedding of the agent, memory and scraper core

    The Python sources are embedded as Rocq functions, one module per source
    file.  Python values of type [Any] are modelled by [pyval]; methods that
    may raise are computations in a state-and-exception monad whose
    combinators follow Python's [try] / [except Exception] / [finally].
    External collaborators (the LLM client, the HTTP transport, the clock,
    the feed scrapers) are oracles over an abstract world.

    Logging calls do not change program state and are left out.  The
    exceptions of the model are the instances of [Exception], the class that
    every handler of the sources names. *)

From Stdlib Require Import ZArith QArith Qcanon Lia Sorted Permutation.
From stdpp Require Import base list strings gmap pretty.

Set Default Proof Using "Type".
Local Open Scope Z_scope.

(** ** Python values *)

Module py.

(** The values that travel through [Any]-typed positions: tool parameters,
    tool outputs, memory contents, search results.  A float is modelled by
    the rational it denotes. *)
#[warnings="-register-all"]
Inductive pyval : Type :=
| PyNone
| PyBool (b : bool)
| PyInt (z : Z)
| PyFloat (q : Q)
| PyStr (s : string)
| PyList (l : list pyval)
| PyDict (d : list (string * pyval)).

(** A [Dict[str, Any]] keeps its keys in insertion order. *)
Definition pydict : Type := list (string * pyval).

Fixpoint dict_lookup (d : pydict) (k : string) : option pyval :=
  match d with
  | [] => None
  | (k', v) :: d' => if String.eqb k' k then Some v else dict_lookup d' k
  end.

(** [bool(v)] *)
Definition truthy (v : pyval) : bool :=
  match v with
  | PyNone => false
  | PyBool b => b
  | PyInt z => negb (z =? 0)
  | PyFloat q => negb (Qnum q =? 0)
  | PyStr s => negb (String.eqb s "")
  | PyList l => match l with [] => false | _ => true end
  | PyDict d => match d with [] => false | _ => true end
  end.

(** [type(v).__name__] *)
Definition type_name (v : pyval) : string :=
  match v with
  | PyNone => "NoneType"
  | PyBool _ => "bool"
  | PyInt _ => "int"
  | PyFloat _ => "float"
  | PyStr _ => "str"
  | PyList _ => "list"
  | PyDict _ => "dict"
  end.

(** Instances of [Exception]: the class name and [str(e)]. *)
Record exception : Type := Exc { exc_class : string; exc_str : string }.

Definition ValueError (msg : string) : exception := Exc "ValueError" msg.
Definition AttributeError (msg : string) : exception := Exc "AttributeError" msg.
Definition TypeError (msg : string) : exception := Exc "TypeError" msg.
Definition KeyError (msg : string) : exception := Exc "KeyError" msg.

(** How a call ends. *)
Inductive outcome (A : Type) : Type :=
| Returned (a : A)
| Raised (e : exception).
Arguments Returned {A} a.
Arguments Raised {A} e.

(** A method body: it reads and writes a state [S] and returns or raises. *)
Definition Run (S A : Type) : Type := S -> outcome A * S.

Definition ret {S A} (a : A) : Run S A := fun s => (Returned a, s).

Definition raise {S A} (e : exception) : Run S A := fun s => (Raised e, s).

Definition bind {S A B} (m : Run S A) (k : A -> Run S B) : Run S B :=
  fun s => match m s with
           | (Returned a, s') => k a s'
           | (Raised e, s') => (Raised e, s')
           end.

Definition get {S} : Run S S := fun s => (Returned s, s).

Definition modify {S} (f : S -> S) : Run S unit := fun s => (Returned tt, f s).

(** A pure step that may raise. *)
Definition lift {S A} (o : outcome A) : Run S A := fun s => (o, s).

(** [try: body / except Exception as e: handler e] *)
Definition try_except {S A} (body : Run S A) (handler : exception -> Run S A) : Run S A :=
  fun s => match body s with
           | (Returned a, s') => (Returned a, s')
           | (Raised e, s') => handler e s'
           end.

(** [try: body / finally: cleanup].  The cleanup runs on both exits; when it
    raises, its exception replaces the outcome of the body. *)
Definition try_finally {S A} (body : Run S A) (cleanup : Run S unit) : Run S A :=
  fun s => match body s with
           | (o, s') => match cleanup s' with
                        | (Returned _, s'') => (o, s'')
                        | (Raised e, s'') => (Raised e, s'')
                        end
           end.

(** [for x in xs: body x], with the loop variable threaded through [acc]. *)
Fixpoint for_each {S A B} (xs : list A) (acc : B) (body : A -> B -> Run S B) : Run S B :=
  match xs with
  | [] => ret acc
  | x :: xs' => bind (body x acc) (fun acc' => for_each xs' acc' body)
  end.

(** [v.name] for a data attribute [name], such as [success] or [output], on
    a builtin value: the builtin types have methods and no such attributes,
    so the lookup raises. *)
Definition getattr (v : pyval) (name : string) : outcome pyval :=
  Raised (AttributeError ("'" +:+ type_name v +:+ "' object has no attribute '" +:+ name +:+ "'")).

(** [v.get(key)], the method of [dict]. *)
Definition call_get (v : pyval) (key : string) : outcome pyval :=
  match v with
  | PyDict d => Returned (default PyNone (dict_lookup d key))
  | _ => Raised (AttributeError ("'" +:+ type_name v +:+ "' object has no attribute 'get'"))
  end.

(** [v.get(key, dflt)] *)
Definition call_get_default (v : pyval) (key : string) (dflt : pyval) : outcome pyval :=
  match v with
  | PyDict d => Returned (default dflt (dict_lookup d key))
  | _ => Raised (AttributeError ("'" +:+ type_name v +:+ "' object has no attribute 'get'"))
  end.

(** [v[key]] with a string key. *)
Definition getitem (v : pyval) (key : string) : outcome pyval :=
  match v with
  | PyDict d => match dict_lookup d key with
                | Some x => Returned x
                | None => Raised (KeyError key)
                end
  | PyNone | PyBool _ | PyInt _ | PyFloat _ =>
      Raised (TypeError ("'" +:+ type_name v +:+ "' object is not subscriptable"))
  | PyStr _ => Raised (TypeError "string indices must be integers")
  | PyList _ => Raised (TypeError "list indices must be integers or slices, not str")
  end.

(** [l[:stop]]: a negative [stop] counts from the end. *)
Definition slice_to {A} (l : list A) (stop : Z) : list A :=
  if stop <? 0
  then take (Z.to_nat (Z.of_nat (length l) + stop)) l
  else take (Z.to_nat stop) l.

(** [for x in v]: the elements of a list, the characters of a string, the
    keys of a dictionary. *)
Fixpoint chars (s : string) : list pyval :=
  match s with
  | EmptyString => []
  | String c s' => PyStr (String c EmptyString) :: chars s'
  end.

Definition iter (v : pyval) : outcome (list pyval) :=
  match v with
  | PyList l => Returned l
  | PyStr s => Returned (chars s)
  | PyDict d => Returned (map (fun kv => PyStr (fst kv)) d)
  | PyNone | PyBool _ | PyInt _ | PyFloat _ =>
      Raised (TypeError ("'" +:+ type_name v +:+ "' object is not iterable"))
  end.

(** What a set compares: [None], numbers ([True == 1 == 1.0]) and strings
    hash; lists and dictionaries do not. *)
Inductive hkey : Type :=
| HNone
| HNum (q : Qc)
| HStr (s : string).

#[global] Instance hkey_eq_dec : EqDecision hkey.
Proof. solve_decision. Defined.

Definition hash_key (v : pyval) : outcome hkey :=
  match v with
  | PyNone => Returned HNone
  | PyBool b => Returned (HNum (Q2Qc (inject_Z (if b then 1 else 0))))
  | PyInt z => Returned (HNum (Q2Qc (inject_Z z)))
  | PyFloat q => Returned (HNum (Q2Qc q))
  | PyStr s => Returned (HStr s)
  | PyList _ | PyDict _ =>
      Raised (TypeError ("unhashable type: '" +:+ type_name v +:+ "'"))
  end.

(** [str.lower], [sub in s] and [str.strip] on ASCII text. *)
Definition lower_ascii (c : Ascii.ascii) : Ascii.ascii :=
  let n := Ascii.nat_of_ascii c in
  if ((65 <=? n)%nat && (n <=? 90)%nat)%bool then Ascii.ascii_of_nat (n + 32) else c.

Fixpoint lower (s : string) : string :=
  match s with
  | EmptyString => EmptyString
  | String c s' => String (lower_ascii c) (lower s')
  end.

Fixpoint contains (sub s : string) : bool :=
  (String.prefix sub s ||
   match s with
   | EmptyString => false
   | String _ s' => contains sub s'
   end)%bool.

Definition is_whitespace (c : Ascii.ascii) : bool :=
  let n := Ascii.nat_of_ascii c in
  (((9 <=? n)%nat && (n <=? 13)%nat) || (n =? 32)%nat)%bool.

Fixpoint lstrip (s : string) : string :=
  match s with
  | EmptyString => EmptyString
  | String c s' => if is_whitespace c then lstrip s' else s
  end.

Definition strip (s : string) : string :=
  String.rev (lstrip (String.rev (lstrip s))).

(** The line feed. *)
Definition nl : string := String (Ascii.ascii_of_nat 10) EmptyString.

(** [sep.join(parts)] *)
Fixpoint join (sep : string) (parts : list string) : string :=
  match parts with
  | [] => EmptyString
  | [p] => p
  | p :: rest => p +:+ sep +:+ join sep rest
  end.

(** A naive [datetime], as microseconds on the proleptic time line; the
    order of two datetimes is the order of these numbers. *)
Definition datetime : Type := Z.

End py.

Import py.

(** stdpp's monad notation [x ← m; k] for method bodies. *)
#[global] Instance run_ret {S} : MRet (Run S) := fun A => @ret S A.
#[global] Instance run_bind {S} : MBind (Run S) := fun A B k m => bind m k.

(** ** backend/app/agents/memory.py *)

Module memory.

Record MemoryItem : Type := {
  content : pyval;
  timestamp : datetime;
  metadata : pydict
}.

Record Memory : Type := {
  short_term : list MemoryItem;
  long_term : list MemoryItem;
  max_short_term : Z
}.

(** [Memory.__init__] *)
Definition init (max_short_term : Z) : Memory :=
  {| short_term := []; long_term := []; max_short_term := max_short_term |}.

(** [Memory._consolidate_memories] *)
Definition _consolidate_memories (m : Memory) : Memory :=
  let split := (length (short_term m) / 2)%nat in
  {| short_term := drop split (short_term m);
     long_term := long_term m ++ take split (short_term m);
     max_short_term := max_short_term m |}.

(** [Memory.add_observation]; [now] is the reading of [datetime.utcnow] that
    the item's default factory takes. *)
Definition add_observation (m : Memory) (content : pyval) (metadata : option pydict)
    (now : datetime) : Memory :=
  let metadata := match metadata with None => [] | Some d => d end in
  let item := {| content := content; timestamp := now; metadata := metadata |} in
  let m' := {| short_term := short_term m ++ [item];
               long_term := long_term m;
               max_short_term := max_short_term m |} in
  if Z.of_nat (length (short_term m')) >? max_short_term m'
  then _consolidate_memories m'
  else m'.

(** [Memory.retrieve_relevant_memories] *)
Definition retrieve_relevant_memories (m : Memory) (query : string) (limit : Z)
    : list MemoryItem :=
  let all_memories := short_term m ++ long_term m in
  slice_to all_memories limit.

(** One call of [add_observation] as data, and a run of calls in order. *)
Record observation : Type := {
  obs_content : pyval;
  obs_metadata : option pydict;
  obs_now : datetime
}.

Definition item_of (o : observation) : MemoryItem :=
  {| content := obs_content o;
     timestamp := obs_now o;
     metadata := match obs_metadata o with None => [] | Some d => d end |}.

Definition add_all (m : Memory) (obs : list observation) : Memory :=
  foldl (fun m o => add_observation m (obs_content o) (obs_metadata o) (obs_now o)) m obs.

End memory.

(** ** External collaborators *)

Module platform.

(** The calls that leave the process, in the order they were issued. *)
Inductive event : Type :=
| LLMGenerate (messages : list (string * string)) (kwargs : pydict)
| WebSearch (query : pyval) (domain : pyval).

(** What the agents consume from outside, over a world [W]: the LLM client's
    [generate_async] and [search_web], the clock, and three library
    functions ([datetime.isoformat], [repr] and [re.findall]). *)
Class Collaborators (W : Type) : Type := {
  generate_async : list (string * string) -> pydict -> W -> outcome pyval * W;
  search_web : pyval -> pyval -> W -> outcome (option (list pyval)) * W;
  utcnow : W -> datetime * W;
  isoformat : datetime -> string;
  repr : pyval -> string;
  re_findall : string -> string -> list string
}.

Record Env (W : Type) : Type := { world : W; trace : list event }.
Arguments world {W} _.
Arguments trace {W} _.

Definition record_event {W} (ev : event) : Run (Env W) unit :=
  modify (fun e => {| world := world e; trace := trace e ++ [ev] |}).

(** Run an oracle on the world. *)
Definition ask {W A} (f : W -> outcome A * W) : Run (Env W) A :=
  fun e => match f (world e) with
           | (o, w') => (o, {| world := w'; trace := trace e |})
           end.

Definition now {W} `{Collaborators W} : Run (Env W) datetime :=
  ask (fun w => match utcnow w with (t, w') => (Returned t, w') end).

(** [str(v)] *)
Definition str {W} `{Collaborators W} (v : pyval) : string :=
  match v with
  | PyNone => "None"
  | PyBool true => "True"
  | PyBool false => "False"
  | PyInt z => pretty z
  | PyStr s => s
  | PyFloat _ | PyList _ | PyDict _ => repr v
  end.

End platform.

Import platform.

(** ** backend/app/agents/tool.py *)

Module tool.

(** The pydantic model [ToolResult]; its fields are attributes. *)
Record ToolResult : Type := {
  success : bool;
  output : pyval;
  error : option string
}.

(** [ToolResult.dict()] *)
Definition dict (r : ToolResult) : pyval :=
  PyDict [("success", PyBool (success r));
          ("output", output r);
          ("error", match error r with Some msg => PyStr msg | None => PyNone end)].

(** A [BaseTool] subclass instance: its class attributes and its [execute],
    called with the parameter dictionary as keyword arguments. *)
Record BaseTool (W : Type) : Type := {
  name : string;
  description : string;
  execute : pydict -> Run (Env W) ToolResult
}.
Arguments name {W} _.
Arguments description {W} _.
Arguments execute {W} _ _.

(** [BaseTool._validate] *)
Definition _validate {W} (t : BaseTool W) : outcome unit :=
  if String.eqb (name t) "" then Raised (ValueError "Tool must have a name")
  else if String.eqb (description t) "" then Raised (ValueError "Tool must have a description")
  else Returned tt.

End tool.

(** ** backend/app/agents/agent.py *)

Module agent.

Inductive AgentState : Type := IDLE | THINKING | ACTING | ERROR.

#[global] Instance AgentState_eq_dec : EqDecision AgentState.
Proof. solve_decision. Defined.

(** The instance attributes of an agent object: those that
    [AIAgent.__init__] sets, and [search_domains], which
    [ResearchAgent.__init__] adds. *)
Record AIAgent (W : Type) : Type := {
  name : string;
  role : string;
  state : AgentState;
  memory : memory.Memory;
  tools : gmap string (tool.BaseTool W);
  search_domains : list string
}.
Arguments name {W} _.
Arguments role {W} _.
Arguments state {W} _.
Arguments memory {W} _.
Arguments tools {W} _.
Arguments search_domains {W} _.

(** The agent [self] and the environment it runs in. *)
Record Machine (W : Type) : Type := { self : AIAgent W; env : Env W }.
Arguments self {W} _.
Arguments env {W} _.

Section methods.
Context {W : Type} `{Collaborators W}.

Definition set_state (st : AgentState) : Run (Machine W) unit :=
  modify (fun m =>
    {| self := {| name := name (self m); role := role (self m); state := st;
                  memory := memory (self m); tools := tools (self m);
                  search_domains := search_domains (self m) |};
       env := env m |}).

Definition set_memory (mem : memory.Memory) : Run (Machine W) unit :=
  modify (fun m =>
    {| self := {| name := name (self m); role := role (self m); state := state (self m);
                  memory := mem; tools := tools (self m);
                  search_domains := search_domains (self m) |};
       env := env m |}).

Definition set_tools (ts : gmap string (tool.BaseTool W)) : Run (Machine W) unit :=
  modify (fun m =>
    {| self := {| name := name (self m); role := role (self m); state := state (self m);
                  memory := memory (self m); tools := ts;
                  search_domains := search_domains (self m) |};
       env := env m |}).

(** A step that only touches the environment. *)
Definition in_env {A} (c : Run (Env W) A) : Run (Machine W) A :=
  fun m => match c (env m) with
           | (o, e') => (o, {| self := self m; env := e' |})
           end.

(** [AIAgent.add_tool] *)
Definition add_tool (t : tool.BaseTool W) : Run (Machine W) unit :=
  m ← get;
  match tools (self m) !! tool.name t with
  | Some _ => raise (ValueError ("Tool with name '" +:+ tool.name t +:+ "' already exists"))
  | None => set_tools (<[tool.name t := t]> (tools (self m)))
  end.

(** [AIAgent.get_tool] *)
Definition get_tool (tool_name : string) : Run (Machine W) (tool.BaseTool W) :=
  m ← get;
  match tools (self m) !! tool_name with
  | None => raise (ValueError ("Tool '" +:+ tool_name +:+ "' not found"))
  | Some t => mret t
  end.

(** [AIAgent.observe]; [metadata or {}] is the dictionary itself or the
    empty one. *)
Definition observe (source : string) (content : pyval) (metadata : option pydict)
    : Run (Machine W) unit :=
  t ← in_env now;
  m ← get;
  set_memory (memory.add_observation (memory (self m)) content
                (Some (match metadata with Some d => d | None => [] end)) t).

(** [AIAgent._llm_generate] *)
Definition _llm_generate (prompt : string) (system_message : option string)
    (kwargs : pydict) : Run (Machine W) pyval :=
  let messages :=
    match system_message with
    | Some sm => if String.eqb sm "" then [] else [("system", sm)]
    | None => []
    end ++ [("user", prompt)] in
  try_except
    (_ ← in_env (record_event (LLMGenerate messages kwargs));
     response ← in_env (ask (generate_async messages kwargs));
     lift (getitem response "content"))
    (fun e => raise e).

(** [AIAgent.act] *)
Definition act (action : string) (parameters : pydict) : Run (Machine W) pyval :=
  _ ← set_state ACTING;
  try_finally
    (try_except
       (t ← get_tool action;
        result ← in_env (tool.execute t parameters);
        _ ← observe "action_result" (PyStr ("Executed " +:+ action))
              (Some [("action", PyStr action);
                     ("parameters", PyDict parameters);
                     ("result", tool.dict result)]);
        mret (PyDict [("success", PyBool (tool.success result));
                      ("output", tool.output result);
                      ("error", match tool.error result with
                                | Some msg => PyStr msg
                                | None => PyNone
                                end)]))
       (fun e =>
          let error_msg := "Error executing action " +:+ action +:+ ": " +:+ exc_str e in
          mret (PyDict [("success", PyBool false);
                        ("output", PyNone);
                        ("error", PyStr error_msg)])))
    (set_state IDLE).

(** [AIAgent.__init__]: a fresh agent, then [add_tool] for each tool. *)
Definition init (agent_name agent_role : string) (tool_list : list (tool.BaseTool W))
    (mem : option memory.Memory) : Run (Env W) (AIAgent W) :=
  fun e =>
    let fresh := {| name := agent_name; role := agent_role; state := IDLE;
                    memory := match mem with Some m => m | None => memory.init 100 end;
                    tools := ∅; search_domains := [] |} in
    match for_each tool_list tt (fun t _ => add_tool t) {| self := fresh; env := e |} with
    | (Returned _, m) => (Returned (self m), env m)
    | (Raised ex, m) => (Raised ex, env m)
    end.

(** The messages that [_llm_generate] sends, for the statements about it. *)
Definition messages_for (prompt : string) (system_message : option string)
    : list (string * string) :=
  match system_message with
  | Some sm => if String.eqb sm "" then [("user", prompt)] else [("system", sm); ("user", prompt)]
  | None => [("user", prompt)]
  end.

(** The result dictionary of a failed action, the metadata of the observation
    that [act] records, and an agent with one attribute replaced: the
    vocabulary of the statements about [act]. *)
Definition failure_dict (action : string) (e : exception) : pyval :=
  PyDict [("success", PyBool false);
          ("output", PyNone);
          ("error", PyStr ("Error executing action " +:+ action +:+ ": " +:+ exc_str e))].

Definition action_metadata (action : string) (parameters : pydict) (result : tool.ToolResult)
    : pydict :=
  [("action", PyStr action); ("parameters", PyDict parameters); ("result", tool.dict result)].

Definition with_state (a : AIAgent W) (st : AgentState) : AIAgent W :=
  {| name := name a; role := role a; state := st; memory := memory a;
     tools := tools a; search_domains := search_domains a |}.

Definition with_memory (a : AIAgent W) (mem : memory.Memory) : AIAgent W :=
  {| name := name a; role := role a; state := state a; memory := mem;
     tools := tools a; search_domains := search_domains a |}.

End methods.

End agent.

(** ** backend/app/agents/tools/web_search.py *)

Module web_search.

Section impl.
Context {W : Type} `{Collaborators W}.

(** [len(search_results) > num_results] *)
Definition len_gt (n : nat) (num_results : pyval) : outcome bool :=
  match num_results with
  | PyInt z => Returned (Z.of_nat n >? z)
  | PyBool b => Returned (Z.of_nat n >? (if b then 1 else 0))
  | PyFloat q => Returned (negb (Qle_bool (inject_Z (Z.of_nat n)) q))
  | _ => Raised (TypeError ("'>' not supported between instances of 'int' and '"
                            +:+ type_name num_results +:+ "'"))
  end.

(** [search_results[:num_results]] *)
Definition slice_results (l : list pyval) (num_results : pyval) : outcome (list pyval) :=
  match num_results with
  | PyInt z => Returned (slice_to l z)
  | PyBool b => Returned (slice_to l (if b then 1 else 0))
  | PyNone => Returned l
  | _ => Raised (TypeError "slice indices must be integers or None or have an __index__ method")
  end.

(** The body of [WebSearchTool.execute] once its arguments are bound.  The
    client answers a list of results or [None]. *)
Definition execute_bound (query num_results domain : pyval) : Run (Env W) tool.ToolResult :=
  try_except
    (_ ← record_event (WebSearch query domain);
     found ← ask (search_web query domain);
     search_results ←
       match found with
       | Some ((_ :: _) as l) =>
           over ← lift (len_gt (length l) num_results);
           if over : bool
           then cut ← lift (slice_results l num_results); mret (Some cut)
           else mret found
       | _ => mret found
       end;
     mret {| tool.success := true;
             tool.output :=
               PyDict [("query", query);
                       ("results", match search_results with
                                   | Some ((_ :: _) as l) => PyList l
                                   | _ => PyList []
                                   end);
                       ("result_count", match search_results with
                                        | Some ((_ :: _) as l) => PyInt (Z.of_nat (length l))
                                        | _ => PyInt 0
                                        end)];
             tool.error := None |})
    (fun e =>
       let error_msg := "Error performing web search: " +:+ exc_str e in
       mret {| tool.success := false; tool.output := PyNone; tool.error := Some error_msg |}).

(** [WebSearchTool.execute(query, num_results=5, domain=None)] called with a
    dictionary of keyword arguments. *)
Definition execute (kwargs : pydict) : Run (Env W) tool.ToolResult :=
  match find (fun kv => negb (bool_decide (fst kv ∈ ["query"; "num_results"; "domain"]))) kwargs with
  | Some (k, _) =>
      raise (TypeError ("execute() got an unexpected keyword argument '" +:+ k +:+ "'"))
  | None =>
      match dict_lookup kwargs "query" with
      | None => raise (TypeError "execute() missing 1 required positional argument: 'query'")
      | Some query =>
          execute_bound query
            (default (PyInt 5) (dict_lookup kwargs "num_results"))
            (default PyNone (dict_lookup kwargs "domain"))
      end
  end.

Definition WebSearchTool : tool.BaseTool W :=
  {| tool.name := "web_search";
     tool.description := "Search the web for information on a given topic";
     tool.execute := execute |}.

End impl.

End web_search.

(** ** backend/app/agents/research_agent.py *)

Module research_agent.

Import agent.

Definition role_text : string :=
  "
        You are an AI research assistant specialized in finding and analyzing the latest news
        about AI in software engineering automation. Your goal is to provide comprehensive,
        accurate, and up-to-date information about AI tools, frameworks, and methodologies
        that are transforming software engineering practices.
        ".

Definition default_search_domains : list string :=
  ["github.com";
   "techcrunch.com";
   "venturebeat.com";
   "towardsdatascience.com";
   "medium.com";
   "reddit.com/r/MachineLearning";
   "news.ycombinator.com"].

Definition system_prompt : string :=
  "You are an expert AI research analyst. Your task is to analyze search results
        about AI in software engineering automation and extract key insights, trends, and important information.
        Be concise but thorough in your analysis.".

Definition user_prompt (topic results_text : string) : string :=
  "Please analyze the following search results about '" +:+ topic +:+ "' in the context of
        AI in software engineering automation. Provide:

        1. A 2-3 paragraph summary of the current state of this topic
        2. 3-5 key points or trends
        3. Any notable tools, frameworks, or companies mentioned
        4. Potential implications for software engineering

        Search Results:
        " +:+ results_text.

(** The pattern of [re.findall] in [_analyze_results]; the bullet is the
    three bytes of U+2022. *)
Definition key_point_pattern : string :=
  "(?:\d+\.\s*|" +:+
  String (Ascii.ascii_of_nat 226) (String (Ascii.ascii_of_nat 128)
    (String (Ascii.ascii_of_nat 162) EmptyString)) +:+
  "\s*)([^\n]+)".

(** The loop of [research_topic] that removes duplicates and limits the
    results: [unique] and [seen] are [unique_results] and [seen_urls]. *)
Fixpoint dedup_loop (all_results unique : list pyval) (seen : list hkey) (max_results : Z)
    : outcome (list pyval) :=
  match all_results with
  | [] => Returned unique
  | result :: rest =>
      match call_get result "url" with
      | Raised e => Raised e
      | Returned u =>
          if truthy u then
            match getitem result "url" with
            | Raised e => Raised e
            | Returned url =>
                match hash_key url with
                | Raised e => Raised e
                | Returned k =>
                    if bool_decide (k ∈ seen) then dedup_loop rest unique seen max_results
                    else
                      let unique' := unique ++ [result] in
                      let seen' := k :: seen in
                      if Z.of_nat (length unique') >=? max_results then Returned unique'
                      else dedup_loop rest unique' seen' max_results
                end
            end
          else dedup_loop rest unique seen max_results
      end
  end.

Definition deduplicate (all_results : list pyval) (max_results : Z) : outcome (list pyval) :=
  dedup_loop all_results [] [] max_results.

(** A result that is a dictionary. *)
Definition is_dict (v : pyval) : Prop := exists d, v = PyDict d.

(** The key under which the loop remembers a result: its URL as the set
    sees it, for a result whose URL is truthy. *)
Definition url_key (result : pyval) : option hkey :=
  match call_get result "url" with
  | Returned u =>
      if truthy u then
        match hash_key u with
        | Returned k => Some k
        | Raised _ => None
        end
      else None
  | Raised _ => None
  end.

(** A search result as the search tool's contract has it: a dictionary
    whose URL, when it has one, can be put in a set. *)
Definition well_formed (result : pyval) : Prop :=
  exists d, result = PyDict d /\
    forall u, dict_lookup d "url" = Some u -> truthy u = true ->
              exists k, hash_key u = Returned k.

(** Deduplication as the specification words it: the first result of each
    URL, in encounter order; [seen] holds the URLs met so far. *)
Fixpoint first_by_url (all_results : list pyval) (seen : list hkey) : list pyval :=
  match all_results with
  | [] => []
  | result :: rest =>
      match url_key result with
      | Some k =>
          if bool_decide (k ∈ seen) then first_by_url rest seen
          else result :: first_by_url rest (k :: seen)
      | None => first_by_url rest seen
      end
  end.

(** What reading [.success] off the dictionary that [act] returns raises. *)
Definition no_success_attribute : exception :=
  AttributeError "'dict' object has no attribute 'success'".

Section methods.
Context {W : Type} `{Collaborators W}.

(** [ResearchAgent.__init__] *)
Definition init (agent_name : string) : Run (Env W) (AIAgent W) :=
  base ← agent.init agent_name role_text [web_search.WebSearchTool] None;
  mret {| name := name base; role := role base; state := state base;
          memory := memory base; tools := tools base;
          search_domains := default_search_domains |}.

(** One entry of [results_text]. *)
Definition format_result (r : pyval) : outcome string :=
  match call_get_default r "title" (PyStr "No title") with
  | Raised e => Raised e
  | Returned title =>
      match call_get_default r "url" (PyStr "No URL") with
      | Raised e => Raised e
      | Returned url =>
          match call_get_default r "snippet" (PyStr "No snippet available") with
          | Raised e => Raised e
          | Returned snippet =>
              Returned ("Source: " +:+ str title +:+ " (" +:+ str url +:+ ")" +:+ nl +:+
                        "Snippet: " +:+ str snippet)
          end
      end
  end.

Fixpoint format_results (results : list pyval) : outcome (list string) :=
  match results with
  | [] => Returned []
  | r :: rest =>
      match format_result r with
      | Raised e => Raised e
      | Returned line =>
          match format_results rest with
          | Raised e => Raised e
          | Returned lines => Returned (line :: lines)
          end
      end
  end.

(** The key points that [_analyze_results] reads off the LLM's answer. *)
Definition extract_key_points (analysis : pyval) : outcome (list string) :=
  match analysis with
  | PyStr text =>
      if (contains "key points" (lower text) || contains "1." text)%bool
      then
        let points := re_findall key_point_pattern text in
        Returned (filter (fun p => strip p ≠ "") (map strip points))
      else Returned []
  | _ => Raised (AttributeError ("'" +:+ type_name analysis +:+
                                 "' object has no attribute 'lower'"))
  end.

(** [ResearchAgent._analyze_results] *)
Definition _analyze_results (results : list pyval) (topic : string) : Run (Machine W) pyval :=
  match results with
  | [] => mret (PyDict [("summary", PyStr "No relevant information found.");
                        ("key_points", PyList [])])
  | _ =>
      lines ← lift (format_results results);
      let results_text := join (nl +:+ nl) lines in
      try_except
        (analysis ← _llm_generate (user_prompt topic results_text) (Some system_prompt)
                      [("temperature", PyFloat (7 # 10)); ("max_tokens", PyInt 1000)];
         key_points ← lift (extract_key_points analysis);
         t ← in_env now;
         mret (PyDict [("summary", analysis);
                       ("key_points",
                        PyList (match key_points with
                                | [] => [PyStr "No specific key points extracted."]
                                | _ => map PyStr key_points
                                end));
                       ("analysis_date", PyStr (isoformat t))]))
        (fun e =>
           mret (PyDict [("summary", PyStr "Error analyzing search results.");
                         ("key_points", PyList [PyStr "Analysis failed due to an error."]);
                         ("error", PyStr (exc_str e))]))
  end.

(** The test [search_result.success and search_result.output.get("results")]
    and, when it holds, the value of [search_result.output["results"]]. *)
Definition results_of (search_result : pyval) : outcome (option pyval) :=
  match getattr search_result "success" with
  | Raised e => Raised e
  | Returned ok =>
      if truthy ok then
        match getattr search_result "output" with
        | Raised e => Raised e
        | Returned out =>
            match call_get out "results" with
            | Raised e => Raised e
            | Returned r =>
                if truthy r then
                  match getattr search_result "output" with
                  | Raised e => Raised e
                  | Returned out' =>
                      match getitem out' "results" with
                      | Raised e => Raised e
                      | Returned rs => Returned (Some rs)
                      end
                  end
                else Returned None
            end
        end
      else Returned None
  end.

(** Steps 1 to 3 of [research_topic]: the query, the searches on each
    domain, and the general search when those found nothing.  [list.extend]
    and the later [for] loop both iterate the found value; the model
    iterates it where it is found. *)
Definition gather_results (topic : string) (max_results : Z) : Run (Machine W) (list pyval) :=
  let search_query := topic +:+ " AI software engineering automation" in
  m ← get;
  all_results ←
    for_each (search_domains (self m)) []
      (fun domain all_results =>
         search_result ← act "web_search"
                           [("query", PyStr ("site:" +:+ domain +:+ " " +:+ search_query));
                            ("num_results", PyInt 3)];
         found ← lift (results_of search_result);
         match found with
         | Some rs => items ← lift (iter rs); mret (all_results ++ items)
         | None => mret all_results
         end);
  match all_results with
  | [] =>
      search_result ← act "web_search"
                        [("query", PyStr search_query);
                         ("num_results", PyInt (max_results * 2))];
      found ← lift (results_of search_result);
      match found with
      | Some rs => lift (iter rs)
      | None => mret all_results
      end
  | _ => mret all_results
  end.

(** Steps 1 to 4: the unique results. *)
Definition unique_results (topic : string) (max_results : Z) : Run (Machine W) (list pyval) :=
  all_results ← gather_results topic max_results;
  lift (deduplicate all_results max_results).

(** The body of the [try] statement of [research_topic]. *)
Definition research_body (topic : string) (max_results : Z) : Run (Machine W) pyval :=
  unique ← unique_results topic max_results;
  analysis ← _analyze_results unique topic;
  t ← in_env now;
  m ← get;
  let research_result :=
    PyDict [("topic", PyStr topic);
            ("search_date", PyStr (isoformat t));
            ("sources_searched", PyInt (Z.of_nat (length (search_domains (self m))) + 1));
            ("results_found", PyInt (Z.of_nat (length unique)));
            ("results", PyList unique);
            ("analysis", analysis)] in
  summary ← lift (call_get_default analysis "summary" (PyStr ""));
  _ ← observe "research" (PyStr ("Completed research on " +:+ topic))
        (Some [("topic", PyStr topic); ("results_summary", summary)]);
  mret research_result.

(** The [try] / [except] / [finally] frame of [research_topic] around a
    body. *)
Definition guarded {A} (body : Run (Machine W) A) : Run (Machine W) A :=
  _ ← set_state THINKING;
  try_finally
    (try_except body (fun e => _ ← set_state ERROR; raise e))
    (m ← get;
     if bool_decide (state (self m) ≠ ERROR) then set_state IDLE else mret tt).

(** [ResearchAgent.research_topic] *)
Definition research_topic (topic : string) (max_results : Z) : Run (Machine W) pyval :=
  guarded (research_body topic max_results).

(** [ResearchAgent.compare_tools] *)
Definition compare_tools (tool_names : list string) : Run (Machine W) pyval :=
  match tool_names with
  | [] => mret (PyDict [("error", PyStr "No tools provided for comparison")])
  | _ => research_topic ("compare " +:+ join " vs " tool_names +:+
                         " for software engineering automation") 5
  end.

(** [ResearchAgent.get_latest_developments] *)
Definition get_latest_developments (days : Z) : Run (Machine W) pyval :=
  research_topic ("latest developments in AI for software engineering automation last " +:+
                  pretty days +:+ " days") 5.

(** [ResearchAgent.research_trends] *)
Definition research_trends : Run (Machine W) pyval :=
  research_topic "emerging trends in AI for software engineering automation" 5.

(** What [research_topic] and its wrappers end in. *)
Definition fails_on_first_search (r : outcome pyval * Machine W) : Prop :=
  r.1 = Raised no_success_attribute /\ state (self r.2) = ERROR.

End methods.

End research_agent.

(** ** backend/app/scrapers/base_scraper.py *)

Module base_scraper.

(** The dataclass [ScrapedArticle]. *)
Record ScrapedArticle : Type := {
  title : string;
  url : string;
  content : string;
  published_date : datetime;
  source : string;
  authors : list string;
  keywords : list string;
  summary : option string;
  ai_related : bool;
  technologies : list string;
  job_impact : list (string * list string)
}.

(** What [_make_request] reads of an [httpx.Response]. *)
Record Response : Type := { status_code : Z; text : string }.

(** The outside of a scraper over a world [W], with [T] the type of the
    readings of [time.time]: the clock and [time.sleep], the difference and
    the order of two readings, the random user agent, the HTTP client's
    [request] (with its timeout of 30 seconds and its redirects) and
    [Response.raise_for_status]. *)
Class Network (W T : Type) : Type := {
  time : W -> T * W;
  sleep : T -> W -> W;
  t_zero : T;
  t_sub : T -> T -> T;
  t_lt : T -> T -> bool;
  ua_random : W -> string * W;
  client_request :
    string -> string -> list (string * string) -> pydict -> W -> outcome Response * W;
  raise_for_status : Response -> outcome unit
}.

(** The instance attributes of a [BaseScraper]. *)
Record BaseScraper (T : Type) : Type := {
  name : string;
  base_url : string;
  rate_limit : T;
  last_request_time : T
}.
Arguments name {T} _.
Arguments base_url {T} _.
Arguments rate_limit {T} _.
Arguments last_request_time {T} _.

Record Machine (W T : Type) : Type := { self : BaseScraper T; world : W }.
Arguments self {W T} _.
Arguments world {W T} _.

Section methods.
Context {W T : Type} `{Network W T}.

(** [BaseScraper.__init__] *)
Definition init (scraper_name url : string) (limit : T) : BaseScraper T :=
  {| name := scraper_name; base_url := url; rate_limit := limit;
     last_request_time := t_zero |}.

Definition on_world {A} (f : W -> A * W) : Run (Machine W T) A :=
  fun m => match f (world m) with
           | (a, w') => (Returned a, {| self := self m; world := w' |})
           end.

Definition set_last_request_time (t : T) : Run (Machine W T) unit :=
  modify (fun m =>
    {| self := {| name := name (self m); base_url := base_url (self m);
                  rate_limit := rate_limit (self m); last_request_time := t |};
       world := world m |}).

(** [d.update(new)] on headers: a present key takes the new value in
    place, a new key goes to the end. *)
Fixpoint header_set (d : list (string * string)) (k v : string) : list (string * string) :=
  match d with
  | [] => [(k, v)]
  | (k', v') :: d' => if String.eqb k' k then (k, v) :: d' else (k', v') :: header_set d' k v
  end.

Definition headers_update (d new : list (string * string)) : list (string * string) :=
  foldl (fun d kv => header_set d (fst kv) (snd kv)) d new.

(** The part of [_make_request] before its [try]: the rate limit and the
    headers. *)
Definition prepare (headers : list (string * string))
    : Run (Machine W T) (list (string * string)) :=
  t ← on_world time;
  m ← get;
  let time_since_last := t_sub t (last_request_time (self m)) in
  _ ← (if t_lt time_since_last (rate_limit (self m))
       then on_world (fun w => (tt, sleep (t_sub (rate_limit (self m)) time_since_last) w))
       else mret tt);
  ua ← on_world ua_random;
  mret (headers_update headers
          [("User-Agent", ua);
           ("Accept", "text/html,application/xhtml+xml,application/xml;q=0.9,image/webp,*/*;q=0.8");
           ("Accept-Language", "en-US,en;q=0.5")]).

(** [client.request(...)] followed by [response.raise_for_status()]. *)
Definition exchange (url method : string) (headers : list (string * string)) (kwargs : pydict)
    : Run (Machine W T) Response :=
  response ← (fun m => match client_request method url headers kwargs (world m) with
                       | (o, w') => (o, {| self := self m; world := w' |})
                       end);
  _ ← lift (raise_for_status response);
  mret response.

(** [BaseScraper._make_request]; [headers] is the entry of that name in the
    keyword arguments (empty when absent) and [kwargs] the others. *)
Definition _make_request (url method : string) (headers : list (string * string))
    (kwargs : pydict) : Run (Machine W T) (option Response) :=
  headers' ← prepare headers;
  try_except
    (response ← exchange url method headers' kwargs;
     t ← on_world time;
     _ ← set_last_request_time t;
     mret (Some response))
    (fun e => mret None).

End methods.

(** [headers[k]], when the key is there. *)
Fixpoint header_get (d : list (string * string)) (k : string) : option string :=
  match d with
  | [] => None
  | (k', v) :: d' => if String.eqb k' k then Some v else header_get d' k
  end.

(** The vocabulary of [_extract_technologies]. *)
Definition tech_keywords : list string :=
  ["AI"; "ML"; "machine learning"; "deep learning"; "LLM"; "GPT"; "Copilot";
   "GitHub"; "CI/CD"; "Docker"; "Kubernetes"; "automation"; "testing";
   "deployment"; "infrastructure as code"; "Terraform"; "Ansible"; "Jenkins"].

(** [BaseScraper._extract_technologies] *)
Definition _extract_technologies (text : string) : list string :=
  filter (fun tech => contains (lower tech) (lower text) = true) tech_keywords.

(** The categories of [_analyze_job_impact] and their keywords. *)
Definition impact_keywords : list (string * list string) :=
  [("junior", ["junior"; "entry-level"; "early career"; "new grad"]);
   ("mid", ["mid-level"; "experienced"; "senior"]);
   ("task", ["task automation"; "code generation"; "testing automation"]);
   ("role", ["role elimination"; "job replacement"; "reduce hiring"])].

(** The keywords of a category that occur in the lowered text, and the
    entry of the category when there are any. *)
Definition found_keywords (text_lower : string) (keywords : list string) : list string :=
  filter (fun kw => contains kw text_lower = true) keywords.

Definition impact_entry (text_lower : string) (entry : string * list string)
    : option (string * list string) :=
  match found_keywords text_lower (snd entry) with
  | [] => None
  | found => Some (fst entry, found)
  end.

(** [BaseScraper._analyze_job_impact]; the dictionary keeps the order of
    the categories. *)
Definition _analyze_job_impact (text : string) : list (string * list string) :=
  let text_lower := lower text in
  omap (impact_entry text_lower) impact_keywords.

End base_scraper.

(** ** backend/app/scrapers/__init__.py *)

Module scrapers.

Import base_scraper.

(** [l.sort(key=lambda x: x.published_date, reverse=True)]: Python's sort
    is stable, also when reversed.  [insert_newest] puts an article before
    the first one that is not newer. *)
Fixpoint insert_newest (a : ScrapedArticle) (l : list ScrapedArticle) : list ScrapedArticle :=
  match l with
  | [] => [a]
  | b :: l' =>
      if published_date b <=? published_date a then a :: b :: l'
      else b :: insert_newest a l'
  end.

Fixpoint sort_newest_first (l : list ScrapedArticle) : list ScrapedArticle :=
  match l with
  | [] => []
  | a :: l' => insert_newest a (sort_newest_first l')
  end.

(** [newer_first a b]: [a] may stand before [b] in the sorted list. *)
Definition newer_first (a b : ScrapedArticle) : Prop :=
  published_date b <= published_date a.

(** A registered scraper: its [scrape] method over a world [W]. *)
Record Scraper (W : Type) : Type := {
  scrape : option string -> W -> outcome (list ScrapedArticle) * W
}.
Arguments scrape {W} _ _ _.

(** [ScraperManager]: the dictionary [scrapers], in insertion order. *)
Record ScraperManager (W : Type) : Type := {
  scrapers : list (string * Scraper W)
}.
Arguments scrapers {W} _.

Section methods.
Context {W : Type}.

(** The loop of [scrape_all]: a scraper that raises is skipped. *)
Definition collect (mgr : ScraperManager W) (query : option string)
    : Run W (list ScrapedArticle) :=
  for_each (scrapers mgr) []
    (fun entry all_articles =>
       try_except
         (articles ← scrape (snd entry) query;
          mret (all_articles ++ articles))
         (fun e => mret all_articles)).

(** [ScraperManager.scrape_all] *)
Definition scrape_all (mgr : ScraperManager W) (query : option string)
    : Run W (list ScrapedArticle) :=
  all_articles ← collect mgr query;
  mret (sort_newest_first all_articles).

(** [ScraperManager.scrape_single] *)
Definition scrape_single (mgr : ScraperManager W) (src : string) (query : option string)
    : Run W (list ScrapedArticle) :=
  match find (fun entry => String.eqb (fst entry) src) (scrapers mgr) with
  | None => raise (ValueError ("Unknown scraper: " +:+ src))
  | Some entry => scrape (snd entry) query
  end.

End methods.

End scrapers.

(** ** backend/app/scrapers/sources/tech_news_scraper.py *)

Module tech_news_scraper.

Import base_scraper.

(** An entry of a parsed feed, by the keys that [_process_entry] reads: an
    absent key is [None]; [authors] holds the [name] of each author and
    [source_title] the title of the entry's source. *)
Record FeedEntry : Type := {
  link : option string;
  entry_title : option string;
  entry_summary : option string;
  published_parsed : option (list Z);
  entry_authors : list (option string);
  source_title : option string
}.

(** What [newspaper.Article] holds after [download] and [parse]. *)
Record Article : Type := {
  article_title : string;
  article_text : string;
  article_authors : list string;
  article_keywords : list string;
  article_summary : string
}.

(** The outside of the feed scraper over a world [W]: [feedparser.parse]
    (the entries of the feed), the download and parse of an article, the
    [datetime] constructor on the fields of a time tuple, and the clock. *)
Class Feeds (W : Type) : Type := {
  feedparser_parse : string -> W -> outcome (list FeedEntry) * W;
  article_download : string -> W -> outcome Article * W;
  make_datetime : list Z -> outcome datetime;
  clock : W -> datetime * W
}.

(** The instance attributes that [scrape] reads. *)
Record TechNewsScraper : Type := {
  name : string;
  feeds : list string
}.

(** [TechNewsScraper.__init__] *)
Definition init : TechNewsScraper :=
  {| name := "tech_news";
     feeds := ["https://techcrunch.com/feed/";
               "https://www.theverge.com/rss/index.xml";
               "https://feeds.feedburner.com/TechCrunch/";
               "https://www.wired.com/feed/rss"] |}.

Definition relevance_terms : list string :=
  ["ai"; "artificial intelligence"; "automation"; "ml"; "machine learning"].

(** The relevance test of [_process_entry]. *)
Definition is_relevant (entry : FeedEntry) : bool :=
  let title := lower (default "" (entry_title entry)) in
  let summary := lower (default "" (entry_summary entry)) in
  existsb (fun term => contains term (title +:+ " " +:+ summary)) relevance_terms.

(** What every article of the feed scraper satisfies. *)
Definition scraped_well (a : ScrapedArticle) : Prop :=
  ai_related a = true /\ url a <> "" /\
  technologies a = _extract_technologies (content a) /\
  job_impact a = _analyze_job_impact (content a).

Section methods.
Context {W : Type} `{Feeds W}.

Definition on_world {A} (f : W -> outcome A * W) : Run W A := f.

(** The [try] block of [_process_entry]. *)
Definition build_article (self : TechNewsScraper) (entry : FeedEntry) (url : string)
    : Run W (option ScrapedArticle) :=
  article ← on_world (article_download url);
  let authors :=
    match article_authors article with
    | [] => map (default "") (entry_authors entry)
    | found => found
    end in
  published_date ←
    (match published_parsed entry with
     | Some [] | None => fun w => match clock w with (t, w') => (Returned t, w') end
     | Some published => lift (make_datetime (take 6 published))
     end : Run W datetime);
  mret (Some {| title := if String.eqb (article_title article) ""
                         then default "No title" (entry_title entry)
                         else article_title article;
                url := url;
                content := article_text article;
                published_date := published_date;
                source := default (name self) (source_title entry);
                authors := authors;
                keywords := article_keywords article;
                summary := Some (if String.eqb (article_summary article) ""
                                 then default "" (entry_summary entry)
                                 else article_summary article);
                ai_related := true;
                technologies := _extract_technologies (article_text article);
                job_impact := _analyze_job_impact (article_text article) |}).

(** [TechNewsScraper._process_entry] *)
Definition _process_entry (self : TechNewsScraper) (entry : FeedEntry)
    : Run W (option ScrapedArticle) :=
  match link entry with
  | None => mret None
  | Some url =>
      if String.eqb url "" then mret None
      else if negb (is_relevant entry) then mret None
      else try_except (build_article self entry url) (fun e => mret None)
  end.

(** [TechNewsScraper.scrape]; the list [articles] is the accumulator of
    both loops. *)
Definition scrape (self : TechNewsScraper) (query : option string)
    : Run W (list ScrapedArticle) :=
  for_each (feeds self) []
    (fun feed_url articles =>
       try_except
         (entries ← on_world (feedparser_parse feed_url);
          for_each (take 10 entries) articles
            (fun entry articles =>
               try_except
                 (article ← _process_entry self entry;
                  match article with
                  | Some a => mret (articles ++ [a])
                  | None => mret articles
                  end)
                 (fun e => mret articles)))
         (fun e => mret articles)).

End methods.

End tech_news_scraper.

(** ** backend/app/llm/client.py and backend/app/config/llm_config.py *)

Module llm_client.

(** The settings of [LLMConfig] that the client reads. *)
Record LLMConfig : Type := {
  provider : string;
  model : string;
  temperature : Q;
  max_tokens : Z;
  openai_api_key : option string;
  openai_organization : option string
}.

(** The defaults of [LLMConfig]. *)
Definition default_config : LLMConfig :=
  {| provider := "openai";
     model := "gpt-4-turbo-preview";
     temperature := 7 # 10;
     max_tokens := 2000;
     openai_api_key := None;
     openai_organization := None |}.

(** An [LLMClient]: its configuration and whether each OpenAI client was
    built ([None] otherwise). *)
Record LLMClient : Type := {
  config : LLMConfig;
  openai_client : bool;
  async_openai_client : bool
}.

(** [LLMClient.__init__] with [_setup_clients] *)
Definition init (cfg : LLMConfig) : LLMClient :=
  let usable :=
    (String.eqb (provider cfg) "openai" &&
     match openai_api_key cfg with
     | Some key => negb (String.eqb key "")
     | None => false
     end)%bool in
  {| config := cfg; openai_client := usable; async_openai_client := usable |}.

(** What the client reads of a chat completion: the content and finish
    reason of its first choice, its usage and its model. *)
Record Completion : Type := {
  content : pyval;
  usage : pyval;
  completion_model : string;
  finish_reason : pyval
}.

(** The OpenAI API over a world [W]: [chat.completions.create] on the
    parameters, with the reading of the first choice. *)
Class OpenAI (W : Type) : Type := {
  chat_completions_create : pydict -> W -> outcome Completion * W
}.

(** [d[k] = v]: a present key keeps its place. *)
Fixpoint dict_set (d : pydict) (k : string) (v : pyval) : pydict :=
  match d with
  | [] => [(k, v)]
  | (k', v') :: d' => if String.eqb k' k then (k, v) :: d' else (k', v') :: dict_set d' k v
  end.

(** The dictionary display that ends in the unpacking of [kwargs]. *)
Definition dict_update (d kwargs : pydict) : pydict :=
  foldl (fun d kv => dict_set d (fst kv) (snd kv)) d kwargs.

(** The parameters that [_generate_openai_async] sends. *)
Definition request_params (cfg : LLMConfig) (messages : pyval) (kwargs : pydict) : pydict :=
  dict_update [("model", PyStr (model cfg));
               ("messages", messages);
               ("temperature", PyFloat (temperature cfg));
               ("max_tokens", PyInt (max_tokens cfg))] kwargs.

Section methods.
Context {W : Type} `{OpenAI W}.

(** [LLMClient._generate_openai_async] *)
Definition _generate_openai_async (client : LLMClient) (messages : pyval) (kwargs : pydict)
    : Run W pyval :=
  if negb (async_openai_client client)
  then raise (ValueError "OpenAI client not properly initialized")
  else
    let params := request_params (config client) messages kwargs in
    try_except
      (response ← (chat_completions_create params : Run W Completion);
       mret (PyDict [("content", content response);
                     ("usage", usage response);
                     ("model", PyStr (completion_model response));
                     ("finish_reason", finish_reason response)]))
      (fun e => raise e).

(** [LLMClient.generate_async] *)
Definition generate_async (client : LLMClient) (messages : pyval) (kwargs : pydict)
    : Run W pyval :=
  if (String.eqb (provider (config client)) "openai" && async_openai_client client)%bool
  then _generate_openai_async client messages kwargs
  else raise (Exc "NotImplementedError"
                  ("Async generation not implemented for provider: " +:+
                   provider (config client))).

(** The messages of the agent as the list of dictionaries that the client
    takes. *)
Definition message_dicts (messages : list (string * string)) : pyval :=
  PyList (map (fun rc => PyDict [("role", PyStr (fst rc)); ("content", PyStr (snd rc))]) messages).

(** The collaborators of the agents with this client for the LLM: its
    [generate_async], and no [search_web], which the class does not define. *)
Definition collaborators (client : LLMClient) (rest : Collaborators W) : Collaborators W :=
  {| platform.generate_async := fun messages kwargs =>
       generate_async client (message_dicts messages) kwargs;
     search_web := fun _ _ w =>
       (Raised (AttributeError "'LLMClient' object has no attribute 'search_web'"), w);
     utcnow := @utcnow W rest;
     isoformat := @isoformat W rest;
     repr := @repr W rest;
     re_findall := @re_findall W rest |}.

End methods.

End llm_client.

(** ** backend/app/main.py *)

Module main.

Import base_scraper.

(** What an endpoint answers: its value, or the [HTTPException] it raises. *)
Inductive response (A : Type) : Type :=
| OK (body : A)
| HTTPException (status_code : Z) (detail : string).
Arguments OK {A} body.
Arguments HTTPException {A} status_code detail.

Section endpoints.
Context {W : Type}.

(** [isinstance(e, ValueError)]: the class of the exception is [ValueError]
    or one of its subclasses, by the class hierarchy [issubclass]. *)
Variable issubclass : string -> string -> bool.

(** [GET /scrape] *)
Definition scrape_all (mgr : scrapers.ScraperManager W) (query : option string) (w : W)
    : response (list ScrapedArticle) * W :=
  match scrapers.scrape_all mgr query w with
  | (Returned articles, w') => (OK articles, w')
  | (Raised e, w') => (HTTPException 500 (exc_str e), w')
  end.

(** [GET /sources] *)
Definition list_sources (mgr : scrapers.ScraperManager W) : list string :=
  map fst (scrapers.scrapers mgr).

(** [GET /scrape/{source}] *)
Definition scrape_source (mgr : scrapers.ScraperManager W) (src : string)
    (query : option string) (w : W) : response (list ScrapedArticle) * W :=
  match scrapers.scrape_single mgr src query w with
  | (Returned articles, w') => (OK articles, w')
  | (Raised e, w') =>
      if issubclass (exc_class e) "ValueError"
      then (HTTPException 404 (exc_str e), w')
      else (HTTPException 500 (exc_str e), w')
  end.

End endpoints.

End main.

(** ** Sample worlds and agents *)

Module fixtures.

(** A world without state: the clock stands still, every search finds an
    empty list and the LLM answers one numbered line. *)
Definition quiet : Collaborators unit :=
  {| generate_async := fun _ _ w => (Returned (PyDict [("content", PyStr "1. nothing")]), w);
     search_web := fun _ _ w => (Returned (Some []), w);
     utcnow := fun w => (0, w);
     isoformat := fun _ => "1970-01-01T00:00:00";
     repr := fun _ => "";
     re_findall := fun _ _ => [] |}.

(** The same world with the LLM client as the repository has it, where
    [search_web] is not defined. *)
Definition shipped : Collaborators unit :=
  {| generate_async := fun _ _ w => (Returned (PyDict [("content", PyStr "1. nothing")]), w);
     search_web := fun _ _ w =>
       (Raised (AttributeError "'LLMClient' object has no attribute 'search_web'"), w);
     utcnow := fun w => (0, w);
     isoformat := fun _ => "1970-01-01T00:00:00";
     repr := fun _ => "";
     re_findall := fun _ _ => [] |}.

(** A world whose every search finds the given answers. *)
Definition finding (answers : list pyval) : Collaborators unit :=
  {| generate_async := fun _ _ w => (Returned (PyDict [("content", PyStr "1. nothing")]), w);
     search_web := fun _ _ w => (Returned (Some answers), w);
     utcnow := fun w => (0, w);
     isoformat := fun _ => "1970-01-01T00:00:00";
     repr := fun _ => "";
     re_findall := fun _ _ => ["nothing"] |}.

(** Three search results, two of them with one URL. *)
Definition three_results : list pyval :=
  [PyDict [("title", PyStr "A"); ("url", PyStr "https://a.example")];
   PyDict [("title", PyStr "B"); ("url", PyStr "https://b.example")];
   PyDict [("title", PyStr "A again"); ("url", PyStr "https://a.example")]].

Definition empty_env : Env unit := {| world := tt; trace := [] |}.

(** An agent without tools. *)
Definition bare_agent : agent.AIAgent unit :=
  {| agent.name := "agent"; agent.role := "role"; agent.state := agent.IDLE;
     agent.memory := memory.init 100; agent.tools := ∅; agent.search_domains := [] |}.

(** A tool that always raises, and an agent that has it. *)
Definition broken_tool : tool.BaseTool unit :=
  {| tool.name := "broken"; tool.description := "always fails";
     tool.execute := fun _ => raise (Exc "RuntimeError" "boom") |}.

Definition agent_with_broken_tool : agent.AIAgent unit :=
  {| agent.name := "agent"; agent.role := "role"; agent.state := agent.IDLE;
     agent.memory := memory.init 100; agent.tools := {[ "broken" := broken_tool ]};
     agent.search_domains := [] |}.

(** The research agent as [ResearchAgent.__init__] builds it over a world. *)
Definition research_agent_in (c : Collaborators unit) : agent.AIAgent unit :=
  {| agent.name := "AI Research Agent"; agent.role := research_agent.role_text;
     agent.state := agent.IDLE; agent.memory := memory.init 100;
     agent.tools := {[ "web_search" := @web_search.WebSearchTool unit c ]};
     agent.search_domains := research_agent.default_search_domains |}.

(** A feed entry about AI, and a world whose feeds hold it and whose
    downloads find one text. *)
Definition sample_entry : tech_news_scraper.FeedEntry :=
  {| tech_news_scraper.link := Some "https://news.example/copilot";
     tech_news_scraper.entry_title := Some "New AI Copilot for Testing";
     tech_news_scraper.entry_summary := Some "ai-based test automation";
     tech_news_scraper.published_parsed := None;
     tech_news_scraper.entry_authors := [];
     tech_news_scraper.source_title := None |}.

Definition sample_feeds : tech_news_scraper.Feeds unit :=
  {| tech_news_scraper.feedparser_parse := fun _ w => (Returned [sample_entry], w);
     tech_news_scraper.article_download := fun _ w =>
       (Returned {| tech_news_scraper.article_title := "";
                    tech_news_scraper.article_text := "Docker and Kubernetes pipelines";
                    tech_news_scraper.article_authors := [];
                    tech_news_scraper.article_keywords := [];
                    tech_news_scraper.article_summary := "" |}, w);
     tech_news_scraper.make_datetime := fun _ => Returned 0;
     tech_news_scraper.clock := fun w => (0, w) |}.

(** An OpenAI API that answers one line. *)
Definition sample_openai : llm_client.OpenAI unit :=
  {| llm_client.chat_completions_create := fun _ w =>
       (Returned {| llm_client.content := PyStr "1. nothing";
                    llm_client.usage := PyNone;
                    llm_client.completion_model := "gpt-4-turbo-preview";
                    llm_client.finish_reason := PyStr "stop" |}, w) |}.

(** Two articles of the same date between a newer and an older one. *)
Definition article (t : string) (d : datetime) : base_scraper.ScrapedArticle :=
  {| base_scraper.title := t; base_scraper.url := t; base_scraper.content := "";
     base_scraper.published_date := d; base_scraper.source := "tech_news";
     base_scraper.authors := []; base_scraper.keywords := [];
     base_scraper.summary := None; base_scraper.ai_related := true;
     base_scraper.technologies := []; base_scraper.job_impact := [] |}.

(** A scraper that always raises and one that finds two articles. *)
Definition failing_scraper : scrapers.Scraper unit :=
  {| scrapers.scrape := fun _ w => (Raised (Exc "RuntimeError" "feed down"), w) |}.

Definition working_scraper : scrapers.Scraper unit :=
  {| scrapers.scrape := fun _ w => (Returned [article "old" 1; article "new" 2], w) |}.

End fixtures.

(** Unfolds the monad and the setters of the agent, to run a method body
    step by step. *)
Ltac run_unfold :=
  unfold mbind, mret, run_bind, run_ret, bind, ret, raise, get, modify, lift,
    try_except, try_finally, agent.in_env, agent.set_state, agent.set_memory, now, ask.

(** The same for a tool body, which runs on the environment alone, with the
    closing steps of a case of it. *)
Ltac env_unfold :=
  unfold record_event, mbind, mret, run_bind, run_ret, bind, ret, raise, get, modify, lift,
    try_except, ask.

Ltac finish :=
  eexists _, _; split; [reflexivity|]; cbn; repeat split;
  try (eexists; split; [reflexivity | discriminate]).

(** The same for the feed scraper. *)
Ltac feed_unfold :=
  unfold mbind, mret, run_bind, run_ret, bind, ret, raise, lift, try_except,
    tech_news_scraper.on_world.

(** * Properties *)

(** ** Memory *)

Section memory_facts.
Import memory.

Lemma add_observation_fits m c md t :
  Z.of_nat (length (short_term m)) + 1 <= max_short_term m ->
  add_observation m c md t =
    {| short_term := short_term m ++ [item_of {| obs_content := c; obs_metadata := md; obs_now := t |}];
       long_term := long_term m;
       max_short_term := max_short_term m |}.
Proof.
  intros Hfit. unfold add_observation, item_of. cbn [short_term max_short_term long_term].
  rewrite length_app. cbn [length].
  destruct (Z.gtb_spec (Z.of_nat (length (short_term m) + 1)) (max_short_term m)) as [Hgt|_].
  - lia.
  - reflexivity.
Qed.

Lemma add_observation_spills m c md t :
  max_short_term m < Z.of_nat (length (short_term m)) + 1 ->
  add_observation m c md t =
    _consolidate_memories
      {| short_term := short_term m ++ [item_of {| obs_content := c; obs_metadata := md; obs_now := t |}];
         long_term := long_term m;
         max_short_term := max_short_term m |}.
Proof.
  intros Hover. unfold add_observation, item_of. cbn [short_term max_short_term long_term].
  rewrite length_app. cbn [length].
  destruct (Z.gtb_spec (Z.of_nat (length (short_term m) + 1)) (max_short_term m)) as [_|Hle].
  - reflexivity.
  - lia.
Qed.

Lemma add_observation_bound m c md t :
  max_short_term (add_observation m c md t) = max_short_term m.
Proof.
  unfold add_observation. cbn [short_term max_short_term long_term].
  destruct (_ >? _); reflexivity.
Qed.

Lemma add_all_snoc m obs o :
  add_all m (obs ++ [o]) =
    add_observation (add_all m obs) (obs_content o) (obs_metadata o) (obs_now o).
Proof. unfold add_all. rewrite foldl_app. reflexivity. Qed.

(** Below the bound nothing is consolidated: the short-term list is the
    run of items in insertion order. *)
Lemma add_all_below_bound (B : Z) obs :
  Z.of_nat (length obs) <= B ->
  add_all (init B) obs =
    {| short_term := map item_of obs; long_term := []; max_short_term := B |}.
Proof.
  induction obs as [|o obs IH] using rev_ind; intros Hlen.
  - reflexivity.
  - rewrite length_app in Hlen. cbn [length] in Hlen.
    rewrite add_all_snoc, IH by lia.
    rewrite add_observation_fits.
    + cbn [short_term long_term max_short_term]. rewrite map_app. cbn [map].
      destruct o; reflexivity.
    + cbn [short_term max_short_term]. rewrite length_map. lia.
Qed.

(** The state right after the insertion that crosses the bound. *)
Lemma add_all_crossing (B : nat) obs :
  length obs = (B + 1)%nat ->
  add_all (init (Z.of_nat B)) obs =
    {| short_term := drop ((B + 1) / 2) (map item_of obs);
       long_term := take ((B + 1) / 2) (map item_of obs);
       max_short_term := Z.of_nat B |}.
Proof.
  intros Hlen.
  destruct obs as [|o obs _] using rev_ind.
  - cbn [length] in Hlen. lia.
  - rewrite length_app in Hlen. cbn [length] in Hlen.
    rewrite add_all_snoc, add_all_below_bound by lia.
    rewrite add_observation_spills.
    + unfold _consolidate_memories. cbn [short_term long_term max_short_term].
      rewrite map_app. cbn [map].
      replace (item_of {| obs_content := obs_content o; obs_metadata := obs_metadata o;
                          obs_now := obs_now o |}) with (item_of o) by (destruct o; reflexivity).
      rewrite length_app, length_map. cbn [length].
      replace (length obs + 1)%nat with (B + 1)%nat by lia.
      reflexivity.
    + cbn [short_term max_short_term]. rewrite length_map. lia.
Qed.

(** C1. A memory with bound [B] that receives [B + 1] observations from
    empty keeps at most ceil(B/2) + 1 items in the short-term list and at
    least floor(B/2) in the long-term list; the long-term list is exactly the
    oldest floor((B+1)/2) items and the short-term list the others, both in
    insertion order. *)
Theorem overflow_moves_oldest_half (B : nat) (obs : list observation) :
  (1 <= B)%nat ->
  length obs = (B + 1)%nat ->
  let m := add_all (init (Z.of_nat B)) obs in
  let items := map item_of obs in
  (length (short_term m) <= (B / 2 + B `mod` 2) + 1)%nat /\
  (B / 2 <= length (long_term m))%nat /\
  long_term m = take ((B + 1) / 2) items /\
  short_term m = drop ((B + 1) / 2) items /\
  long_term m ++ short_term m = items.
Proof.
  intros HB Hlen m items. subst m items.
  rewrite add_all_crossing by exact Hlen.
  cbn [short_term long_term].
  assert (Hhalf : ((B + 1) / 2 <= B / 2 + B `mod` 2 /\ B / 2 <= (B + 1) / 2)%nat).
  { pose proof (Nat.div_mod_eq B 2) as E1. pose proof (Nat.div_mod_eq (B + 1) 2) as E2.
    pose proof (Nat.mod_upper_bound B 2) as U1. pose proof (Nat.mod_upper_bound (B + 1) 2) as U2.
    lia. }
  assert (Hle : ((B + 1) / 2 <= B + 1)%nat).
  { pose proof (Nat.div_mod_eq (B + 1) 2). lia. }
  rewrite length_drop, length_take, length_map, Hlen.
  repeat split.
  - pose proof (Nat.div_mod_eq (B + 1) 2) as E2. pose proof (Nat.div_mod_eq B 2) as E1.
    pose proof (Nat.mod_upper_bound B 2). pose proof (Nat.mod_upper_bound (B + 1) 2). lia.
  - lia.
  - apply take_drop.
Qed.

Lemma overflow_moves_oldest_half_witness :
  let o := fun n => {| obs_content := PyInt n; obs_metadata := None; obs_now := n |} in
  let m := add_all (init 3) [o 1; o 2; o 3; o 4] in
  long_term m = map item_of [o 1; o 2] /\ short_term m = map item_of [o 3; o 4].
Proof.
  intros o m.
  pose proof (overflow_moves_oldest_half 3 [o 1; o 2; o 3; o 4] ltac:(lia) eq_refl)
    as (_ & _ & Hlong & Hshort & _).
  split; [exact Hlong | exact Hshort].
Defined.

Lemma add_observation_spill_length m c md t :
  max_short_term m < Z.of_nat (length (short_term m)) + 1 ->
  length (short_term (add_observation m c md t)) =
    (length (short_term m) + 1 - (length (short_term m) + 1) / 2)%nat.
Proof.
  intros Hover. rewrite add_observation_spills by exact Hover.
  unfold _consolidate_memories. cbn [short_term].
  rewrite length_drop, length_app. cbn [length]. reflexivity.
Qed.

(** One insertion keeps a short-term list that was within a bound of at
    least 1 within that bound. *)
Lemma add_observation_within_bound m c md t :
  1 <= max_short_term m ->
  Z.of_nat (length (short_term m)) <= max_short_term m ->
  Z.of_nat (length (short_term (add_observation m c md t))) <= max_short_term m.
Proof.
  intros HB Hin.
  destruct (Z_le_gt_dec (Z.of_nat (length (short_term m)) + 1) (max_short_term m)) as [Hfit|Hover].
  - rewrite add_observation_fits by exact Hfit. cbn [short_term].
    rewrite length_app. cbn [length]. lia.
  - rewrite add_observation_spill_length by lia.
    pose proof (Nat.div_mod_eq (length (short_term m) + 1) 2) as E.
    pose proof (Nat.mod_upper_bound (length (short_term m) + 1) 2) as U.
    lia.
Qed.

(** Every memory built from [init B] by insertions stays within [B]. *)
Lemma add_all_within_bound (B : Z) obs :
  1 <= B ->
  max_short_term (add_all (init B) obs) = B /\
  Z.of_nat (length (short_term (add_all (init B) obs))) <= B.
Proof.
  intros HB. induction obs as [|o obs [IHb IHl]] using rev_ind.
  - cbn. split; [reflexivity | lia].
  - rewrite add_all_snoc. split.
    + rewrite add_observation_bound. exact IHb.
    + rewrite <- IHb at 2. apply add_observation_within_bound; rewrite IHb; assumption.
Qed.

(** C4, as the code has it.  When an insertion takes a short-term list
    that was within the bound [B >= 1] past it, consolidation leaves
    ceil((B+1)/2) items: at most [B], and fewer than [B] exactly when
    [B >= 3]. *)
Theorem consolidation_returns_within_bound m c md t :
  let B := max_short_term m in
  1 <= B ->
  Z.of_nat (length (short_term m)) <= B ->
  B < Z.of_nat (length (short_term m)) + 1 ->
  let len' := Z.of_nat (length (short_term (add_observation m c md t))) in
  len' = B + 1 - (B + 1) / 2 /\ len' <= B /\ (len' < B <-> 3 <= B).
Proof.
  intros B HB Hin Hover len'. subst len'.
  rewrite add_observation_spill_length by exact Hover.
  assert (Hlen : Z.of_nat (length (short_term m)) = B) by lia.
  pose proof (Nat.div_mod_eq (length (short_term m) + 1) 2) as E.
  pose proof (Nat.mod_upper_bound (length (short_term m) + 1) 2) as U.
  pose proof (Z.div_mod (B + 1) 2) as EZ.
  pose proof (Z.mod_pos_bound (B + 1) 2) as UZ.
  lia.
Qed.

Lemma consolidation_returns_within_bound_witness :
  let o := fun n => {| obs_content := PyInt n; obs_metadata := None; obs_now := n |} in
  let m := add_all (init 3) [o 1; o 2; o 3] in
  Z.of_nat (length (short_term (add_observation m (PyInt 4) None 4))) < 3.
Proof.
  intros o m.
  assert (HB : 1 <= max_short_term m) by (vm_compute; discriminate).
  assert (Hin : Z.of_nat (length (short_term m)) <= max_short_term m)
    by (vm_compute; discriminate).
  assert (Hover : max_short_term m < Z.of_nat (length (short_term m)) + 1)
    by (vm_compute; reflexivity).
  pose proof (consolidation_returns_within_bound m (PyInt 4) None 4 HB Hin Hover)
    as (_ & _ & Hlt).
  apply Hlt. vm_compute. discriminate.
Defined.

(** C4, as stated, fails for the bounds 1 and 2: with [B = 1] the second
    insertion crosses the bound and consolidation leaves one item, which is
    not below 1. *)
Lemma consolidation_not_below_small_bound :
  let m := add_observation (init 1) (PyInt 1) None 1 in
  max_short_term m = 1 /\
  Z.of_nat (length (short_term m)) <= max_short_term m /\
  max_short_term m < Z.of_nat (length (short_term m)) + 1 /\
  ~ Z.of_nat (length (short_term (add_observation m (PyInt 2) None 2))) < max_short_term m.
Proof. intros m. repeat split; vm_compute; (reflexivity || discriminate). Qed.

(** C10, as the code has it.  [retrieve_relevant_memories] does not look at
    the query: two calls on one memory with one limit return the same list,
    the slice [[:limit]] of the short-term list followed by the long-term
    list.  That is their first [limit] items when [limit] is not negative,
    and all but their last [-limit] items when it is. *)
Theorem retrieve_ignores_query (m : Memory) (query query' : string) (limit : Z) :
  retrieve_relevant_memories m query limit = retrieve_relevant_memories m query' limit /\
  (0 <= limit ->
   retrieve_relevant_memories m query limit =
     take (Z.to_nat limit) (short_term m ++ long_term m)) /\
  (limit < 0 ->
   retrieve_relevant_memories m query limit =
     take (length (short_term m ++ long_term m) - Z.to_nat (- limit))
          (short_term m ++ long_term m)).
Proof.
  unfold retrieve_relevant_memories, slice_to. split; [reflexivity|]. split; intros Hl.
  - destruct (Z.ltb_spec limit 0); [lia | reflexivity].
  - destruct (Z.ltb_spec limit 0); [|lia]. f_equal. lia.
Qed.

Lemma retrieve_ignores_query_witness :
  let o := fun n => {| obs_content := PyInt n; obs_metadata := None; obs_now := n |} in
  let m := add_all (init 3) [o 1; o 2; o 3; o 4] in
  retrieve_relevant_memories m "tools" 3 = map item_of [o 3; o 4; o 1].
Proof.
  intros o m.
  pose proof (retrieve_ignores_query m "tools" "" 3) as (_ & Hfirst & _).
  rewrite Hfirst by lia. reflexivity.
Defined.

(** C10, as stated, fails for a negative limit: with two items in memory
    and [limit = -1] the call returns the first item, not the empty list of
    the first [-1] items. *)
Lemma retrieve_negative_limit_keeps_items :
  let o := fun n => {| obs_content := PyInt n; obs_metadata := None; obs_now := n |} in
  let m := add_all (init 3) [o 1; o 2] in
  retrieve_relevant_memories m "tools" (-1) = [item_of (o 1)] /\
  take (Z.to_nat (-1)) (short_term m ++ long_term m) = [] /\
  retrieve_relevant_memories m "tools" (-1) <>
    take (Z.to_nat (-1)) (short_term m ++ long_term m).
Proof. repeat split. vm_compute. discriminate. Qed.

End memory_facts.

(** ** Agent *)

Section agent_facts.
Import agent.
Context {W : Type} `{Collaborators W}.

Lemma act_unknown_tool (m : Machine W) action parameters :
  tools (self m) !! action = None ->
  act action parameters m =
    (Returned (failure_dict action (ValueError ("Tool '" +:+ action +:+ "' not found"))),
     {| self := with_state (self m) IDLE; env := env m |}).
Proof.
  intros Hnone. unfold act, get_tool. run_unfold. cbn. rewrite Hnone. reflexivity.
Qed.

Lemma act_tool_raises (m : Machine W) action parameters t e env' :
  tools (self m) !! action = Some t ->
  tool.execute t parameters (env m) = (Raised e, env') ->
  act action parameters m =
    (Returned (failure_dict action e), {| self := with_state (self m) IDLE; env := env' |}).
Proof.
  intros Hsome Hexec. unfold act, get_tool. run_unfold. cbn. rewrite Hsome. cbn.
  rewrite Hexec. reflexivity.
Qed.

Lemma act_tool_returns (m : Machine W) action parameters t result env' :
  tools (self m) !! action = Some t ->
  tool.execute t parameters (env m) = (Returned result, env') ->
  act action parameters m =
    (Returned (PyDict [("success", PyBool (tool.success result));
                       ("output", tool.output result);
                       ("error", match tool.error result with
                                 | Some msg => PyStr msg
                                 | None => PyNone
                                 end)]),
     {| self := with_state
                  (with_memory (self m)
                     (memory.add_observation (memory (self m))
                        (PyStr ("Executed " +:+ action))
                        (Some (action_metadata action parameters result))
                        (utcnow (world env')).1))
                  IDLE;
        env := {| world := (utcnow (world env')).2; trace := trace env' |} |}).
Proof.
  intros Hsome Hexec. unfold act, get_tool, observe. run_unfold. cbn. rewrite Hsome. cbn.
  rewrite Hexec. cbn. destruct (utcnow (world env')) as [t0 w'] eqn:Hnow. cbn.
  reflexivity.
Qed.

(** C5. [act] never raises: it always returns a dictionary.  For a name
    that is not registered the dictionary has [success] false, [output]
    [None] and a non-empty [error]; the same holds, with the tool's message,
    when the tool raises. *)
Theorem act_never_raises (m : Machine W) (action : string) (parameters : pydict) :
  (exists v m', act action parameters m = (Returned v, m')) /\
  (tools (self m) !! action = None ->
   exists msg, msg <> "" /\
     (act action parameters m).1 =
       Returned (PyDict [("success", PyBool false); ("output", PyNone); ("error", PyStr msg)])) /\
  (forall t e env',
     tools (self m) !! action = Some t ->
     tool.execute t parameters (env m) = (Raised e, env') ->
     exists msg, msg <> "" /\
       (act action parameters m).1 =
         Returned (PyDict [("success", PyBool false); ("output", PyNone); ("error", PyStr msg)])).
Proof.
  split; [|split].
  - destruct (tools (self m) !! action) as [t|] eqn:Hlook.
    + destruct (tool.execute t parameters (env m)) as [[result|e] env'] eqn:Hexec.
      * erewrite act_tool_returns by eassumption. eauto.
      * erewrite act_tool_raises by eassumption. eauto.
    + rewrite act_unknown_tool by assumption. eauto.
  - intros Hnone. rewrite act_unknown_tool by assumption.
    eexists. split; [|reflexivity]. discriminate.
  - intros t e env' Hsome Hexec. erewrite act_tool_raises by eassumption.
    eexists. split; [|reflexivity]. discriminate.
Qed.

(** C3, as the code has it.  When [act] returns the state is idle.  The
    observation of the action is recorded when the tool is found and its
    execution returns a result (successful or not); when the lookup fails or
    the tool raises, the memory is left as it was. *)
Theorem act_resets_state_and_observes_results (m : Machine W) (action : string)
    (parameters : pydict) :
  state (self (act action parameters m).2) = IDLE /\
  match tools (self m) !! action with
  | None => memory (self (act action parameters m).2) = memory (self m)
  | Some t =>
      match tool.execute t parameters (env m) with
      | (Raised _, _) => memory (self (act action parameters m).2) = memory (self m)
      | (Returned result, env') =>
          memory (self (act action parameters m).2) =
            memory.add_observation (memory (self m))
              (PyStr ("Executed " +:+ action))
              (Some (action_metadata action parameters result))
              (utcnow (world env')).1
      end
  end.
Proof.
  destruct (tools (self m) !! action) as [t|] eqn:Hlook.
  - destruct (tool.execute t parameters (env m)) as [[result|e] env'] eqn:Hexec.
    + erewrite act_tool_returns by eassumption. split; reflexivity.
    + erewrite act_tool_raises by eassumption. split; reflexivity.
  - rewrite act_unknown_tool by assumption. split; reflexivity.
Qed.

(** The state after [act], for the callers of [act]. *)
Lemma act_leaves_idle (m : Machine W) action parameters :
  state (self (act action parameters m).2) = IDLE.
Proof.
  destruct (tools (self m) !! action) as [t|] eqn:Hlook.
  - destruct (tool.execute t parameters (env m)) as [[result|e] env'] eqn:Hexec.
    + erewrite act_tool_returns by eassumption. reflexivity.
    + erewrite act_tool_raises by eassumption. reflexivity.
  - rewrite act_unknown_tool by assumption. reflexivity.
Qed.

(** [act] returns a dictionary, whatever happens. *)
Lemma act_returns_dict (m : Machine W) action parameters :
  exists d m', act action parameters m = (Returned (PyDict d), m').
Proof.
  destruct (tools (self m) !! action) as [t|] eqn:Hlook.
  - destruct (tool.execute t parameters (env m)) as [[result|e] env'] eqn:Hexec.
    + erewrite act_tool_returns by eassumption. eauto.
    + erewrite act_tool_raises by eassumption. unfold failure_dict. eauto.
  - rewrite act_unknown_tool by assumption. unfold failure_dict. eauto.
Qed.

End agent_facts.

(** C3, as stated, fails: [act] on a name that is not registered, and [act]
    on a tool that raises, both return with the memory empty as before, so
    no observation was recorded. *)
Lemma act_failure_records_nothing :
  let m := {| agent.self := fixtures.bare_agent; agent.env := fixtures.empty_env |} in
  let m' := {| agent.self := fixtures.agent_with_broken_tool; agent.env := fixtures.empty_env |} in
  memory.short_term (agent.memory (agent.self (@agent.act unit fixtures.quiet "missing" [] m).2)) = [] /\
  memory.long_term (agent.memory (agent.self (@agent.act unit fixtures.quiet "missing" [] m).2)) = [] /\
  memory.short_term (agent.memory (agent.self (@agent.act unit fixtures.quiet "broken" [] m').2)) = [] /\
  memory.long_term (agent.memory (agent.self (@agent.act unit fixtures.quiet "broken" [] m').2)) = [].
Proof. repeat split; vm_compute; reflexivity. Qed.

(** ** Research agent *)

Section research_facts.
Import agent research_agent.
Context {W : Type} `{Collaborators W}.

Lemma results_of_dict d : results_of (PyDict d) = Raised no_success_attribute.
Proof. reflexivity. Qed.

Lemma gather_results_raises (m : Machine W) topic max_results :
  exists m',
    gather_results topic max_results m = (Raised no_success_attribute, m') /\
    state (self m') = IDLE.
Proof.
  unfold gather_results. run_unfold.
  destruct (search_domains (self m)) as [|domain domains].
  - cbn [for_each]. unfold ret.
    match goal with |- context [act ?a ?p m] =>
      destruct (act_returns_dict m a p) as (d & m' & Hact);
      pose proof (act_leaves_idle m a p) as Hidle; rewrite Hact in Hidle |- * end.
    rewrite results_of_dict. eauto.
  - cbn [for_each]. unfold bind.
    match goal with |- context [act ?a ?p m] =>
      destruct (act_returns_dict m a p) as (d & m' & Hact);
      pose proof (act_leaves_idle m a p) as Hidle; rewrite Hact in Hidle |- * end.
    rewrite results_of_dict. eauto.
Qed.

(** The frame of [research_topic] around any body: an exception of the
    body comes out with the state set to error. *)
Lemma guarded_raises {A} (body : Run (Machine W) A) (m m1 : Machine W) e :
  body {| self := with_state (self m) THINKING; env := env m |} = (Raised e, m1) ->
  guarded body m = (Raised e, {| self := with_state (self m1) ERROR; env := env m1 |}).
Proof.
  intros Hbody. unfold guarded. run_unfold. cbn. unfold with_state in Hbody.
  rewrite Hbody. cbn. reflexivity.
Qed.

(** A body that returns, in a state other than error, leaves the state
    idle. *)
Lemma guarded_returns {A} (body : Run (Machine W) A) (m m1 : Machine W) v :
  body {| self := with_state (self m) THINKING; env := env m |} = (Returned v, m1) ->
  state (self m1) <> ERROR ->
  guarded body m = (Returned v, {| self := with_state (self m1) IDLE; env := env m1 |}).
Proof.
  intros Hbody Hstate. unfold guarded. run_unfold. cbn. unfold with_state in Hbody.
  rewrite Hbody. cbn. rewrite bool_decide_true by exact Hstate. reflexivity.
Qed.

Lemma unique_results_raises (m : Machine W) topic max_results :
  exists m',
    unique_results topic max_results m = (Raised no_success_attribute, m') /\
    state (self m') = IDLE.
Proof.
  destruct (gather_results_raises m topic max_results) as (m' & Hgather & Hidle).
  exists m'. split; [|exact Hidle].
  unfold unique_results. run_unfold. rewrite Hgather. reflexivity.
Qed.

(** With [act] returning a dictionary, every call of [research_topic] ends
    in the attribute error of its first search, before any analysis. *)
Lemma research_topic_always_raises (m : Machine W) topic max_results :
  exists m',
    research_topic topic max_results m = (Raised no_success_attribute, m') /\
    state (self m') = ERROR.
Proof.
  destruct (unique_results_raises {| self := with_state (self m) THINKING; env := env m |}
              topic max_results) as (m1 & Huniq & _).
  eexists. split.
  - unfold research_topic. apply guarded_raises.
    unfold research_body. run_unfold. rewrite Huniq. reflexivity.
  - reflexivity.
Qed.

(** The analysis of an empty result list is the fixed answer; the LLM is
    not called and nothing else changes. *)
Lemma analyze_nothing (m : Machine W) topic :
  _analyze_results [] topic m =
    (Returned (PyDict [("summary", PyStr "No relevant information found.");
                       ("key_points", PyList [])]), m).
Proof. reflexivity. Qed.

(** C8. [research_topic] is its [try] / [except] / [finally] frame around
    its body.  An exception that escapes steps 1 to 4 comes out of
    [research_topic] and leaves the state at error.  For every body in the
    frame: when the body raises, the exception comes out and the state is
    error; when the body returns, not having set the state to error, the
    frame returns its value and the state is idle. *)
Theorem research_topic_final_state (m : Machine W) (topic : string) (max_results : Z) :
  research_topic topic max_results m = guarded (research_body topic max_results) m /\
  (forall e m1,
     unique_results topic max_results
       {| self := with_state (self m) THINKING; env := env m |} = (Raised e, m1) ->
     (research_topic topic max_results m).1 = Raised e /\
     state (self (research_topic topic max_results m).2) = ERROR) /\
  (forall (A : Type) (body : Run (Machine W) A) e m1,
     body {| self := with_state (self m) THINKING; env := env m |} = (Raised e, m1) ->
     guarded body m = (Raised e, {| self := with_state (self m1) ERROR; env := env m1 |})) /\
  (forall (A : Type) (body : Run (Machine W) A) v m1,
     body {| self := with_state (self m) THINKING; env := env m |} = (Returned v, m1) ->
     state (self m1) <> ERROR ->
     guarded body m = (Returned v, {| self := with_state (self m1) IDLE; env := env m1 |})).
Proof.
  split; [reflexivity|]. split; [|split].
  - intros e m1 Huniq. unfold research_topic.
    erewrite guarded_raises.
    + split; reflexivity.
    + unfold research_body. run_unfold. rewrite Huniq. reflexivity.
  - intros A body e m1 Hbody. apply guarded_raises, Hbody.
  - intros A body v m1 Hbody Hstate. apply guarded_returns; assumption.
Qed.

End research_facts.

(** ** Deduplication *)

Section dedup_facts.
Import research_agent.

(** One step of the loop on a well-formed result, by the key of the
    result. *)
Lemma dedup_loop_cons result rest unique seen max_results :
  well_formed result ->
  dedup_loop (result :: rest) unique seen max_results =
    match url_key result with
    | Some k =>
        if bool_decide (k ∈ seen) then dedup_loop rest unique seen max_results
        else if Z.of_nat (length (unique ++ [result])) >=? max_results
             then Returned (unique ++ [result])
             else dedup_loop rest (unique ++ [result]) (k :: seen) max_results
    | None => dedup_loop rest unique seen max_results
    end.
Proof.
  intros (d & -> & Hhash). unfold url_key. cbn [dedup_loop call_get getitem].
  destruct (dict_lookup d "url") as [u|] eqn:Hlook; cbn [from_option]; unfold id.
  - destruct (truthy u) eqn:Htruthy; [|reflexivity].
    destruct (Hhash u eq_refl Htruthy) as (k & ->). reflexivity.
  - reflexivity.
Qed.

(** The loop computes the first results by URL, cut after
    [max(1, max_results - len(unique))] new ones. *)
Lemma dedup_loop_refines all_results unique seen max_results :
  Forall well_formed all_results ->
  dedup_loop all_results unique seen max_results =
    Returned (unique ++
              take (Z.to_nat (Z.max 1 (max_results - Z.of_nat (length unique))))
                   (first_by_url all_results seen)).
Proof.
  intros Hwf. revert unique seen.
  induction Hwf as [|result rest Hres _ IH]; intros unique seen.
  - cbn. rewrite take_nil, app_nil_r. reflexivity.
  - rewrite dedup_loop_cons by exact Hres. cbn [first_by_url].
    destruct (url_key result) as [k|]; [|apply IH].
    destruct (bool_decide (k ∈ seen)); [apply IH|].
    rewrite length_app. cbn [length].
    destruct (Z.geb_spec (Z.of_nat (length unique + 1)) max_results) as [Hfull|Hroom].
    + replace (Z.to_nat (Z.max 1 (max_results - Z.of_nat (length unique)))) with 1%nat by lia.
      cbn [take]. rewrite take_0. reflexivity.
    + rewrite IH, length_app. cbn [length].
      replace (Z.to_nat (Z.max 1 (max_results - Z.of_nat (length unique))))
        with (S (Z.to_nat (Z.max 1 (max_results - Z.of_nat (length unique + 1))))) by lia.
      cbn [take]. rewrite <- app_assoc. reflexivity.
Qed.

(** On well-formed results the deduplication step returns, and what it
    returns is the first results by URL, the first [max_results] of them
    when [max_results] is positive and one of them when it is not. *)
Lemma deduplicate_refines all_results max_results :
  Forall well_formed all_results ->
  deduplicate all_results max_results =
    Returned (take (Z.to_nat (Z.max 1 max_results)) (first_by_url all_results [])).
Proof.
  intros Hwf. unfold deduplicate. rewrite dedup_loop_refines by exact Hwf.
  cbn [length app]. do 3 f_equal. lia.
Qed.

(** The first results by URL are a subsequence of the results. *)
Lemma first_by_url_sublist all_results seen :
  sublist (first_by_url all_results seen) all_results.
Proof.
  revert seen. induction all_results as [|result rest IH]; intros seen; cbn.
  - constructor.
  - destruct (url_key result) as [k|].
    + destruct (bool_decide (k ∈ seen)).
      * apply sublist_cons, IH.
      * apply sublist_skip, IH.
    + apply sublist_cons, IH.
Qed.

(** Each of them has a URL, none that was seen before, and no two the same
    one. *)
Lemma first_by_url_keys all_results seen :
  Forall (fun result => is_Some (url_key result)) (first_by_url all_results seen) /\
  NoDup (omap url_key (first_by_url all_results seen)) /\
  (forall k, k ∈ omap url_key (first_by_url all_results seen) -> k ∉ seen).
Proof.
  revert seen. induction all_results as [|result rest IH]; intros seen; cbn [first_by_url].
  - cbn. split; [constructor|]. split; [constructor|]. intros k Hk. inversion Hk.
  - destruct (url_key result) as [k|] eqn:Hkey; [|apply IH].
    destruct (bool_decide_reflect (k ∈ seen)) as [Hin|Hout]; [apply IH|].
    destruct (IH (k :: seen)) as (Hall & Hnodup & Hfresh).
    change (omap url_key (result :: first_by_url rest (k :: seen)))
      with (match url_key result with
            | Some y => y :: omap url_key (first_by_url rest (k :: seen))
            | None => omap url_key (first_by_url rest (k :: seen))
            end).
    rewrite Hkey. split; [|split].
    + constructor; [rewrite Hkey; eauto | exact Hall].
    + constructor; [|exact Hnodup]. intros Hk. apply (Hfresh k Hk). left.
    + intros k' Hk'. apply elem_of_cons in Hk' as [->|Hk']; [exact Hout|].
      intros Hseen. apply (Hfresh k' Hk'). right. exact Hseen.
Qed.

Lemma fmap_snd_shift {A} (o : option (nat * A)) :
  snd <$> (prod_map S id <$> o) = snd <$> o.
Proof. destruct o as [[i x]|]; reflexivity. Qed.

(** For each URL not seen before, the result kept for it is the first
    result with that URL. *)
Lemma first_by_url_first all_results seen k :
  k ∉ seen ->
  snd <$> list_find (fun result => url_key result = Some k) (first_by_url all_results seen) =
  snd <$> list_find (fun result => url_key result = Some k) all_results.
Proof.
  revert seen. induction all_results as [|result rest IH]; intros seen Hk; [reflexivity|].
  cbn [first_by_url list_find].
  destruct (url_key result) as [k'|] eqn:Hkey.
  - destruct (bool_decide_reflect (k' ∈ seen)) as [Hin|Hout].
    + rewrite decide_False by (intros [= ->]; contradiction).
      rewrite fmap_snd_shift. apply IH, Hk.
    + cbn [list_find]. rewrite Hkey. destruct (decide (k' = k)) as [->|Hne].
      * rewrite !decide_True by reflexivity. reflexivity.
      * rewrite !decide_False by congruence.
        rewrite !fmap_snd_shift. apply IH.
        intros Hin. apply elem_of_cons in Hin as [->|Hin]; [congruence | contradiction].
  - rewrite decide_False by discriminate.
    rewrite fmap_snd_shift. apply IH, Hk.
Qed.

Lemma sublist_omap {A B} (f : A -> option B) (l1 l2 : list A) :
  sublist l1 l2 -> sublist (omap f l1) (omap f l2).
Proof.
  induction 1 as [|x l1 l2 _ IH|x l1 l2 _ IH].
  - constructor.
  - change (sublist (match f x with Some b => b :: omap f l1 | None => omap f l1 end)
                    (match f x with Some b => b :: omap f l2 | None => omap f l2 end)).
    destruct (f x); [apply sublist_skip|]; exact IH.
  - change (sublist (omap f l1)
                    (match f x with Some b => b :: omap f l2 | None => omap f l2 end)).
    destruct (f x); [apply sublist_cons|]; exact IH.
Qed.

(** In a list without two equal keys, a key names its element. *)
Lemma omap_nodup_inj {A B} (f : A -> option B) (l : list A) x y k :
  NoDup (omap f l) -> x ∈ l -> y ∈ l -> f x = Some k -> f y = Some k -> x = y.
Proof.
  induction l as [|z l IH]; intros Hnd Hx Hy Hfx Hfy; [inversion Hx|].
  change (omap f (z :: l))
    with (match f z with Some b => b :: omap f l | None => omap f l end) in Hnd.
  apply elem_of_cons in Hx as [->|Hx]; apply elem_of_cons in Hy as [->|Hy].
  - reflexivity.
  - rewrite Hfx in Hnd. apply NoDup_cons in Hnd as [Hnotin _].
    exfalso. apply Hnotin. apply list_elem_of_omap. eauto.
  - rewrite Hfy in Hnd. apply NoDup_cons in Hnd as [Hnotin _].
    exfalso. apply Hnotin. apply list_elem_of_omap. eauto.
  - apply IH; try assumption. destruct (f z); [apply NoDup_cons in Hnd as [_ Hnd]|]; exact Hnd.
Qed.

(** The deduplication step under a positive limit, on well-formed results:
    it returns a subsequence of the results, each with a URL, no URL twice,
    each the first result of its URL, and at most [max_results] of them. *)
Lemma deduplicate_keeps_first_by_url all_results max_results :
  Forall well_formed all_results ->
  1 <= max_results ->
  exists kept,
    deduplicate all_results max_results = Returned kept /\
    sublist kept all_results /\
    Forall (fun result => is_Some (url_key result)) kept /\
    NoDup (omap url_key kept) /\
    (forall result k, result ∈ kept -> url_key result = Some k ->
       snd <$> list_find (fun r => url_key r = Some k) all_results = Some result) /\
    Z.of_nat (length kept) <= max_results.
Proof.
  intros Hwf Hmax. eexists. split; [apply deduplicate_refines, Hwf|].
  destruct (first_by_url_keys all_results []) as (Hall & Hnodup & _).
  set (n := Z.to_nat (Z.max 1 max_results)).
  set (firsts := first_by_url all_results []) in *.
  split; [|split; [|split; [|split]]].
  - transitivity firsts; [apply sublist_take | apply first_by_url_sublist].
  - apply Forall_take, Hall.
  - apply (sublist_NoDup (omap url_key (take n firsts)) (omap url_key firsts));
      first [exact Hnodup | apply sublist_omap, sublist_take].
  - intros result k Hin Hkey.
    assert (Hin' : result ∈ firsts).
    { eapply elem_of_sublist; [exact Hin | apply sublist_take]. }
    rewrite <- (first_by_url_first all_results [] k) by (intros Hk; inversion Hk).
    fold firsts.
    destruct (list_find_elem_of (fun r => url_key r = Some k) firsts result Hin' Hkey)
      as ([i x] & Hfind).
    rewrite Hfind. cbn. f_equal.
    apply list_find_Some in Hfind as (Hlook & Hx & _).
    eapply (omap_nodup_inj url_key firsts); eauto.
    eapply list_elem_of_lookup_2; eauto.
  - rewrite length_take. lia.
Qed.



(** With a limit of zero the loop keeps one result, as the bound
    [max(1, max_results)] says: it tests the limit after appending. *)
Lemma deduplicate_zero_limit_keeps_one :
  deduplicate [PyDict [("title", PyStr "A"); ("url", PyStr "https://a.example")];
               PyDict [("title", PyStr "B"); ("url", PyStr "https://b.example")]] 0 =
    Returned [PyDict [("title", PyStr "A"); ("url", PyStr "https://a.example")]].
Proof. vm_compute. reflexivity. Qed.

End dedup_facts.

(** ** The agents on sample worlds *)

Section samples.
Import agent research_agent fixtures.

Lemma act_never_raises_witness :
  (exists msg, msg <> "" /\
     (@act unit quiet "missing" [] {| self := bare_agent; env := empty_env |}).1 =
       Returned (PyDict [("success", PyBool false); ("output", PyNone);
                         ("error", PyStr msg)])) /\
  (exists msg, msg <> "" /\
     (@act unit quiet "broken" [] {| self := agent_with_broken_tool; env := empty_env |}).1 =
       Returned (PyDict [("success", PyBool false); ("output", PyNone);
                         ("error", PyStr msg)])).
Proof.
  split.
  - apply (proj1 (proj2 (@act_never_raises unit quiet
                           {| self := bare_agent; env := empty_env |} "missing" []))).
    vm_compute. reflexivity.
  - apply (proj2 (proj2 (@act_never_raises unit quiet
                           {| self := agent_with_broken_tool; env := empty_env |} "broken" []))
             broken_tool (Exc "RuntimeError" "boom") empty_env).
    + vm_compute. reflexivity.
    + vm_compute. reflexivity.
Defined.

(** C2. In a world where every search finds an empty list, the first
    search of [research_topic] succeeds with no results, and
    [research_topic] then raises on reading [.success] off the dictionary
    that [act] returned: it does not return the analysis of an empty result
    list.  One search was issued and no LLM call; the state is error. *)
Theorem research_topic_without_results_raises :
  let m := {| self := research_agent_in quiet; env := empty_env |} in
  let query := "site:github.com agents AI software engineering automation" in
  (@act unit quiet "web_search" [("query", PyStr query); ("num_results", PyInt 3)] m).1 =
    Returned (PyDict [("success", PyBool true);
                      ("output", PyDict [("query", PyStr query);
                                         ("results", PyList []);
                                         ("result_count", PyInt 0)]);
                      ("error", PyNone)]) /\
  (@research_topic unit quiet "agents" 5 m).1 = Raised no_success_attribute /\
  state (self (@research_topic unit quiet "agents" 5 m).2) = ERROR /\
  trace (env (@research_topic unit quiet "agents" 5 m).2) = [WebSearch (PyStr query) PyNone].
Proof. repeat split; vm_compute; reflexivity. Qed.

Lemma research_topic_final_state_witness :
  let m := {| self := research_agent_in shipped; env := empty_env |} in
  (@research_topic unit shipped "agents" 5 m).1 = Raised no_success_attribute /\
  state (self (@research_topic unit shipped "agents" 5 m).2) = ERROR /\
  @guarded unit pyval (@_analyze_results unit shipped [] "agents") m =
    (Returned (PyDict [("summary", PyStr "No relevant information found.");
                       ("key_points", PyList [])]),
     {| self := with_state (self m) IDLE; env := env m |}).
Proof.
  intros m.
  set (r := @unique_results unit shipped "agents" 5
              {| self := with_state (self m) THINKING; env := env m |}).
  assert (E : r = (Raised no_success_attribute, r.2)) by (vm_compute; reflexivity).
  destruct (@research_topic_final_state unit shipped m "agents" 5)
    as (_ & Hsteps & _ & Hreturns).
  destruct (Hsteps no_success_attribute r.2 E) as [Hraise Hstate].
  split; [exact Hraise|]. split; [exact Hstate|].
  apply (Hreturns pyval (@_analyze_results unit shipped [] "agents")
           (PyDict [("summary", PyStr "No relevant information found.");
                    ("key_points", PyList [])])
           {| self := with_state (self m) THINKING; env := env m |}).
  - reflexivity.
  - discriminate.
Defined.

End samples.

(** ** Scraper manager *)

Section scraper_facts.
Import base_scraper scrapers.

Lemma insert_newest_perm a l : Permutation (insert_newest a l) (a :: l).
Proof.
  induction l as [|b l IH]; cbn [insert_newest]; [reflexivity|].
  destruct (published_date b <=? published_date a); [reflexivity|].
  rewrite IH. apply perm_swap.
Qed.

Lemma sort_newest_first_perm l : Permutation (sort_newest_first l) l.
Proof.
  induction l as [|a l IH]; cbn [sort_newest_first]; [reflexivity|].
  rewrite insert_newest_perm, IH. reflexivity.
Qed.

Lemma insert_newest_sorted a l :
  StronglySorted newer_first l -> StronglySorted newer_first (insert_newest a l).
Proof.
  induction 1 as [|b l Hsorted IH Hall]; cbn [insert_newest].
  - repeat constructor.
  - destruct (Z.leb_spec (published_date b) (published_date a)) as [Hle|Hgt].
    + constructor; [constructor; assumption|].
      constructor; [exact Hle|].
      eapply Forall_impl; [exact Hall|]. unfold newer_first. intros c Hc. lia.
    + constructor; [exact IH|].
      rewrite insert_newest_perm. constructor; [unfold newer_first; lia | exact Hall].
Qed.

Lemma sort_newest_first_sorted l : StronglySorted newer_first (sort_newest_first l).
Proof.
  induction l as [|a l IH]; cbn [sort_newest_first]; [constructor|].
  apply insert_newest_sorted, IH.
Qed.

(** Insertion does not reorder the articles of one date. *)
Lemma insert_newest_stable a l (d : datetime) :
  filter (fun x => published_date x = d) (insert_newest a l) =
  filter (fun x => published_date x = d) (a :: l).
Proof.
  induction l as [|b l IH]; cbn [insert_newest]; [reflexivity|].
  destruct (Z.leb_spec (published_date b) (published_date a)) as [Hle|Hgt]; [reflexivity|].
  rewrite (filter_cons _ b), IH, !(filter_cons _ a), (filter_cons _ b).
  destruct (decide (published_date b = d)) as [Hb|Hb];
    destruct (decide (published_date a = d)) as [Ha|Ha]; try reflexivity.
  lia.
Qed.

Lemma sort_newest_first_stable l (d : datetime) :
  filter (fun x => published_date x = d) (sort_newest_first l) =
  filter (fun x => published_date x = d) l.
Proof.
  induction l as [|a l IH]; cbn [sort_newest_first]; [reflexivity|].
  rewrite insert_newest_stable, !(filter_cons _ a), IH. reflexivity.
Qed.

(** A sorted list is the articles of its dates, date by date: two sorted
    lists with the same articles in the same order on every date are equal.
    So [sort_newest_first] is the one stable sort by date, newest first. *)
Lemma sorted_stable_unique l1 l2 :
  StronglySorted newer_first l1 ->
  StronglySorted newer_first l2 ->
  (forall d : datetime,
     filter (fun a => published_date a = d) l1 = filter (fun a => published_date a = d) l2) ->
  l1 = l2.
Proof.
  intros Hs1. revert l2. induction Hs1 as [|a l1 Hs1 IH Ha]; intros l2 Hs2 Hsame.
  - destruct l2 as [|b l2]; [reflexivity|].
    specialize (Hsame (published_date b)). rewrite filter_cons_True in Hsame by reflexivity.
    discriminate Hsame.
  - destruct Hs2 as [|b l2 Hs2 Hb].
    + specialize (Hsame (published_date a)). rewrite filter_cons_True in Hsame by reflexivity.
      discriminate Hsame.
    + assert (Hdate : published_date a = published_date b).
      { pose proof (Hsame (published_date a)) as Ea. pose proof (Hsame (published_date b)) as Eb.
        rewrite (filter_cons_True _ a) in Ea by reflexivity.
        rewrite (filter_cons_True _ b) in Eb by reflexivity.
        assert (Hin_a : a ∈ b :: l2).
        { apply (list_elem_of_filter (fun x => published_date x = published_date a)).
          rewrite <- Ea. left. }
        assert (Hin_b : b ∈ a :: l1).
        { apply (list_elem_of_filter (fun x => published_date x = published_date b)).
          rewrite Eb. left. }
        apply elem_of_cons in Hin_a as [->|Hin_a]; [reflexivity|].
        apply elem_of_cons in Hin_b as [->|Hin_b]; [reflexivity|].
        rewrite Forall_forall in Ha, Hb.
        pose proof (Ha b Hin_b). pose proof (Hb a Hin_a). unfold newer_first in *. lia. }
      assert (Heq : a = b).
      { pose proof (Hsame (published_date a)) as Ea.
        rewrite (filter_cons_True _ a) in Ea by reflexivity.
        rewrite (filter_cons_True _ b) in Ea by (symmetry; exact Hdate).
        congruence. }
      subst b. f_equal. apply IH; [exact Hs2|].
      intros d. specialize (Hsame d). rewrite !(filter_cons _ a) in Hsame.
      destruct (decide (published_date a = d)); congruence.
Qed.

Lemma sort_newest_first_unique l sorted :
  StronglySorted newer_first sorted ->
  (forall d : datetime,
     filter (fun a => published_date a = d) sorted = filter (fun a => published_date a = d) l) ->
  sorted = sort_newest_first l.
Proof.
  intros Hsorted Hstable. apply sorted_stable_unique.
  - exact Hsorted.
  - apply sort_newest_first_sorted.
  - intros d. rewrite Hstable, sort_newest_first_stable. reflexivity.
Qed.

(** Two pairs of articles of equal dates keep their order. *)
Lemma sort_newest_first_sample :
  sort_newest_first [fixtures.article "a" 1; fixtures.article "b" 3;
                     fixtures.article "c" 1; fixtures.article "d" 3] =
    [fixtures.article "b" 3; fixtures.article "d" 3;
     fixtures.article "a" 1; fixtures.article "c" 1].
Proof. vm_compute. reflexivity. Qed.

Context {W : Type}.

(** The loop of [scrape_all] absorbs every exception of a scraper. *)
Lemma for_each_collect_returns (entries : list (string * Scraper W)) query acc (w : W) :
  exists all_articles w',
    for_each entries acc
      (fun entry all_articles =>
         try_except
           (articles ← scrape (snd entry) query; mret (all_articles ++ articles))
           (fun e => mret all_articles)) w = (Returned all_articles, w').
Proof.
  revert acc w. induction entries as [|entry entries IH]; intros acc w; cbn [for_each].
  - unfold ret. eauto.
  - unfold bind at 1, try_except, mbind, run_bind, bind, mret, run_ret, ret.
    destruct (scrape (snd entry) query w) as [[articles|e] w1]; apply IH.
Qed.

Lemma collect_returns (mgr : ScraperManager W) query (w : W) :
  exists all_articles w', collect mgr query w = (Returned all_articles, w').
Proof. apply for_each_collect_returns. Qed.

(** C6. [scrape_all] returns, whatever the scrapers do, the collected
    articles sorted by [published_date], newest first; articles of one date
    stand in the order in which they were collected. *)
Theorem scrape_all_sorted_stable (mgr : ScraperManager W) (query : option string) (w : W) :
  exists collected sorted w',
    collect mgr query w = (Returned collected, w') /\
    scrape_all mgr query w = (Returned sorted, w') /\
    StronglySorted newer_first sorted /\
    Permutation sorted collected /\
    forall d : datetime,
      filter (fun a => published_date a = d) sorted =
      filter (fun a => published_date a = d) collected.
Proof.
  destruct (collect_returns mgr query w) as (collected & w' & Hcollect).
  exists collected, (sort_newest_first collected), w'.
  split; [exact Hcollect|]. split.
  - unfold scrape_all, mbind, run_bind, bind, mret, run_ret, ret. rewrite Hcollect. reflexivity.
  - split; [apply sort_newest_first_sorted|].
    split; [apply sort_newest_first_perm|]. intros d. apply sort_newest_first_stable.
Qed.

End scraper_facts.

(** ** Fetcher *)

Section fetcher_facts.
Import base_scraper.
Context {W T : Type} `{Network W T}.

(** The steps before the request leave the scraper as it is. *)
Lemma prepare_returns (m : Machine W T) headers :
  exists headers' w1,
    prepare headers m = (Returned headers', {| self := self m; world := w1 |}).
Proof.
  unfold prepare, on_world, mbind, run_bind, bind, mret, run_ret, ret, get.
  destruct (time (world m)) as [t w0]. cbn [self world].
  destruct (t_lt (t_sub t (last_request_time (self m))) (rate_limit (self m))); cbn [self world].
  - destruct (ua_random _) as [ua w1]. eauto.
  - destruct (ua_random _) as [ua w1]. eauto.
Qed.

(** The exchange with the server does not touch the scraper either. *)
Lemma exchange_keeps_self (m : Machine W T) url method headers kwargs :
  self (exchange url method headers kwargs m).2 = self m.
Proof.
  unfold exchange, mbind, run_bind, bind, mret, run_ret, ret, lift.
  destruct (client_request method url headers kwargs (world m)) as [[response|e] w1].
  - destruct (raise_for_status response); reflexivity.
  - reflexivity.
Qed.

(** C9. [_make_request] never raises.  When the request and the status
    check succeed it returns the response and stores the reading of the clock
    taken after them; when either raises (a transport error, a timeout, an
    HTTP error status, or anything else), it returns [None] and the stored
    last-request time is the one from before the call. *)
Theorem make_request_stores_time_on_success_only (m : Machine W T) (url method : string)
    (headers : list (string * string)) (kwargs : pydict) :
  exists headers' m1,
    prepare headers m = (Returned headers', m1) /\
    match exchange url method headers' kwargs m1 with
    | (Returned response, m2) =>
        (_make_request url method headers kwargs m).1 = Returned (Some response) /\
        last_request_time (self (_make_request url method headers kwargs m).2) =
          (time (world m2)).1
    | (Raised _, _) =>
        (_make_request url method headers kwargs m).1 = Returned None /\
        last_request_time (self (_make_request url method headers kwargs m).2) =
          last_request_time (self m)
    end.
Proof.
  destruct (prepare_returns m headers) as (headers' & w1 & Hprep).
  exists headers', {| self := self m; world := w1 |}. split; [exact Hprep|].
  pose proof (exchange_keeps_self {| self := self m; world := w1 |} url method headers' kwargs)
    as Hself.
  unfold _make_request, try_except, mbind, run_bind, bind. rewrite Hprep.
  destruct (exchange url method headers' kwargs {| self := self m; world := w1 |})
    as [[response|e] m2]; cbn [snd] in Hself.
  - unfold on_world, set_last_request_time, modify, mret, run_ret, ret.
    destruct (time (world m2)) as [t w3]. cbn. split; reflexivity.
  - cbn. rewrite Hself. split; reflexivity.
Qed.

End fetcher_facts.

(** * Further properties *)

(** ** Memory over any run of insertions *)

Section memory_invariants.
Import memory.

Lemma add_observation_keeps_items m c md t :
  long_term (add_observation m c md t) ++ short_term (add_observation m c md t) =
  long_term m ++ short_term m ++
    [item_of {| obs_content := c; obs_metadata := md; obs_now := t |}].
Proof.
  destruct (Z_le_gt_dec (Z.of_nat (length (short_term m)) + 1) (max_short_term m)) as [Hfit|Hover].
  - rewrite add_observation_fits by exact Hfit. reflexivity.
  - rewrite add_observation_spills by lia.
    unfold _consolidate_memories. cbn [short_term long_term].
    rewrite <- app_assoc, take_drop. reflexivity.
Qed.

Lemma add_all_bound (B : Z) obs : max_short_term (add_all (init B) obs) = B.
Proof.
  induction obs as [|o obs IH] using rev_ind; [reflexivity|].
  rewrite add_all_snoc, add_observation_bound. exact IH.
Qed.

(** X1. Consolidation moves items and never drops, copies or reorders
    them: after any run of insertions into a fresh memory, whatever its bound,
    the long-term list followed by the short-term list is the run of inserted
    items in insertion order. *)
Theorem memory_keeps_every_item (B : Z) (obs : list observation) :
  long_term (add_all (init B) obs) ++ short_term (add_all (init B) obs) = map item_of obs /\
  max_short_term (add_all (init B) obs) = B.
Proof.
  split; [|apply add_all_bound].
  induction obs as [|o obs IH] using rev_ind; [reflexivity|].
  rewrite add_all_snoc, add_observation_keeps_items, app_assoc, IH, map_app.
  destruct o; reflexivity.
Qed.

Lemma add_observation_length_step m c md t :
  Z.of_nat (length (short_term m)) <= Z.max 1 (max_short_term m) ->
  Z.of_nat (length (short_term (add_observation m c md t))) <= Z.max 1 (max_short_term m).
Proof.
  intros Hin.
  destruct (Z_le_gt_dec (Z.of_nat (length (short_term m)) + 1) (max_short_term m)) as [Hfit|Hover].
  - rewrite add_observation_fits by exact Hfit. cbn [short_term].
    rewrite length_app. cbn [length]. lia.
  - rewrite add_observation_spill_length by lia.
    pose proof (Nat.div_mod_eq (length (short_term m) + 1) 2) as E.
    pose proof (Nat.mod_upper_bound (length (short_term m) + 1) 2) as U.
    lia.
Qed.

(** X2. The short-term list of a memory built by insertions never holds
    more than [max(1, bound)] items, for every bound, zero and negative ones
    included. *)
Theorem short_term_never_exceeds_bound (B : Z) (obs : list observation) :
  Z.of_nat (length (short_term (add_all (init B) obs))) <= Z.max 1 B.
Proof.
  induction obs as [|o obs IH] using rev_ind; [cbn; lia|].
  rewrite add_all_snoc.
  pose proof (add_all_bound B obs) as Hb.
  rewrite <- Hb at 2. apply add_observation_length_step. rewrite Hb. exact IH.
Qed.

End memory_invariants.

(** ** Tool registry and LLM helper of the agent *)

Section agent_registry.
Import agent.
Context {W : Type} `{Collaborators W}.

Lemma add_tool_fresh (m : Machine W) (t : tool.BaseTool W) :
  tools (self m) !! tool.name t = None ->
  add_tool t m =
    (Returned tt,
     {| self := {| name := name (self m); role := role (self m); state := state (self m);
                   memory := memory (self m);
                   tools := <[tool.name t := t]> (tools (self m));
                   search_domains := search_domains (self m) |};
        env := env m |}).
Proof.
  intros Hfree. unfold add_tool, set_tools. run_unfold. cbn. rewrite Hfree. reflexivity.
Qed.

Lemma add_tool_taken (m : Machine W) (t t0 : tool.BaseTool W) :
  tools (self m) !! tool.name t = Some t0 ->
  add_tool t m =
    (Raised (ValueError ("Tool with name '" +:+ tool.name t +:+ "' already exists")), m).
Proof.
  intros Htaken. unfold add_tool. run_unfold. cbn. rewrite Htaken. reflexivity.
Qed.

(** X3. Registering a tool under a free name succeeds; afterwards
    [get_tool] of that name returns the tool, the tools under other names
    are the ones from before, and state, memory and environment are
    untouched. *)
Theorem add_tool_then_get_tool (m : Machine W) (t : tool.BaseTool W) :
  tools (self m) !! tool.name t = None ->
  exists m',
    add_tool t m = (Returned tt, m') /\
    get_tool (tool.name t) m' = (Returned t, m') /\
    (forall n, n <> tool.name t -> tools (self m') !! n = tools (self m) !! n) /\
    state (self m') = state (self m) /\
    memory (self m') = memory (self m) /\
    env m' = env m.
Proof.
  intros Hfree. eexists. split; [apply add_tool_fresh, Hfree|].
  split; [|split; [|repeat split]].
  - unfold get_tool. run_unfold. cbn. rewrite lookup_insert_eq. reflexivity.
  - intros n Hn. cbn. rewrite lookup_insert_ne by congruence. reflexivity.
Qed.

(** The tools that a run of [add_tool] calls leaves in the registry. *)
Lemma register_all (ts : list (tool.BaseTool W)) (m : Machine W) :
  NoDup (tool.name <$> ts) ->
  (forall t, t ∈ ts -> tools (self m) !! tool.name t = None) ->
  exists m',
    for_each ts tt (fun t _ => add_tool t) m = (Returned tt, m') /\
    (forall t, t ∈ ts -> tools (self m') !! tool.name t = Some t) /\
    (forall n, n ∉ tool.name <$> ts -> tools (self m') !! n = tools (self m) !! n) /\
    name (self m') = name (self m) /\ role (self m') = role (self m) /\
    state (self m') = state (self m) /\ memory (self m') = memory (self m) /\
    search_domains (self m') = search_domains (self m) /\ env m' = env m.
Proof.
  revert m. induction ts as [|t ts IH]; intros m Hnodup Hfree.
  - exists m. cbn. split; [reflexivity|]. split; [intros t Ht; inversion Ht|].
    repeat split; reflexivity.
  - rewrite fmap_cons in Hnodup. apply NoDup_cons in Hnodup as [Hnotin Hnodup].
    cbn [for_each]. unfold bind at 1.
    rewrite add_tool_fresh by (apply Hfree; left).
    match goal with |- context [for_each ts tt _ ?m1] => destruct (IH m1) as
        (m' & Hrun & Hin & Hout & Hn & Hr & Hs & Hm & Hd & He) end.
    + exact Hnodup.
    + intros t' Ht'. cbn. rewrite lookup_insert_ne.
      * apply Hfree. right. exact Ht'.
      * intros Heq. apply Hnotin. rewrite Heq. apply list_elem_of_fmap_2. exact Ht'.
    + exists m'. split; [exact Hrun|]. split; [|split].
      * intros t' Ht'. apply elem_of_cons in Ht' as [->|Ht']; [|apply Hin, Ht'].
        rewrite Hout by exact Hnotin. cbn. apply lookup_insert_eq.
      * intros n Hn'. rewrite fmap_cons in Hn'. apply not_elem_of_cons in Hn' as [Hne Hn'].
        rewrite Hout by exact Hn'. cbn. rewrite lookup_insert_ne by congruence. reflexivity.
      * repeat split; assumption.
Qed.

(** A repeated name, or one that is taken, stops the run with the error of
    [add_tool]. *)
Lemma register_clash (ts : list (tool.BaseTool W)) (m : Machine W) :
  ~ (NoDup (tool.name <$> ts) /\
     forall t, t ∈ ts -> tools (self m) !! tool.name t = None) ->
  exists n m',
    for_each ts tt (fun t _ => add_tool t) m =
      (Raised (ValueError ("Tool with name '" +:+ n +:+ "' already exists")), m') /\
    env m' = env m.
Proof.
  revert m. induction ts as [|t ts IH]; intros m Hbad.
  - exfalso. apply Hbad. split; [constructor|]. intros t Ht. inversion Ht.
  - cbn [for_each]. unfold bind at 1.
    destruct (tools (self m) !! tool.name t) as [t0|] eqn:Hlook.
    + rewrite (add_tool_taken m t t0 Hlook). eauto.
    + rewrite add_tool_fresh by exact Hlook.
      match goal with |- context [for_each ts tt _ ?m1] => destruct (IH m1) as
          (n & m' & Hrun & He) end.
      * intros [Hnodup Hfree]. apply Hbad. split.
        -- rewrite fmap_cons. apply NoDup_cons. split; [|exact Hnodup].
           intros Hin. apply list_elem_of_fmap in Hin as (t' & Heq & Ht').
           specialize (Hfree t' Ht'). cbn in Hfree. rewrite <- Heq in Hfree.
           rewrite lookup_insert_eq in Hfree. discriminate.
        -- intros t' Ht'. apply elem_of_cons in Ht' as [->|Ht']; [exact Hlook|].
           specialize (Hfree t' Ht'). cbn in Hfree.
           destruct (decide (tool.name t = tool.name t')) as [Heq|Hne].
           ++ rewrite Heq, lookup_insert_eq in Hfree. discriminate.
           ++ rewrite lookup_insert_ne in Hfree by exact Hne. exact Hfree.
      * exists n, m'. split; [exact Hrun | exact He].
Qed.

(** X4. [AIAgent.__init__] builds the agent exactly when the names of the
    given tools are pairwise distinct: then every tool is registered under
    its name and nothing else is, the state is idle and the memory is the
    given one; with a repeated name it raises the [ValueError] of
    [add_tool]. *)
Theorem init_registers_distinct_tools (agent_name agent_role : string)
    (ts : list (tool.BaseTool W)) (mem : memory.Memory) (e : Env W) :
  (NoDup (tool.name <$> ts) ->
   exists a,
     init agent_name agent_role ts (Some mem) e = (Returned a, e) /\
     (forall t, t ∈ ts -> tools a !! tool.name t = Some t) /\
     (forall n, n ∉ tool.name <$> ts -> tools a !! n = None) /\
     state a = IDLE /\ memory a = mem /\ name a = agent_name /\ role a = agent_role) /\
  (~ NoDup (tool.name <$> ts) ->
   exists n,
     init agent_name agent_role ts (Some mem) e =
       (Raised (ValueError ("Tool with name '" +:+ n +:+ "' already exists")), e)).
Proof.
  split.
  - intros Hnodup. unfold init.
    match goal with |- context [for_each ts tt _ ?m0] =>
      destruct (register_all ts m0 Hnodup) as
        (m' & Hrun & Hin & Hout & Hn & Hr & Hs & Hm & _ & He) end.
    { intros t _. apply lookup_empty. }
    rewrite Hrun. exists (self m'). cbn in He. rewrite He.
    split; [reflexivity|]. split; [exact Hin|]. split.
    { intros n Hnot. rewrite Hout by exact Hnot. apply lookup_empty. }
    repeat split; assumption.
  - intros Hdup. unfold init.
    match goal with |- context [for_each ts tt _ ?m0] =>
      destruct (register_clash ts m0) as (n & m' & Hrun & He) end.
    { intros [Hnodup _]. contradiction. }
    rewrite Hrun. exists n. cbn in He. rewrite He. reflexivity.
Qed.

End agent_registry.

Section agent_registry_samples.
Import agent fixtures.

Lemma add_tool_then_get_tool_witness :
  exists m',
    @add_tool unit broken_tool {| self := bare_agent; env := empty_env |} = (Returned tt, m') /\
    @get_tool unit "broken" m' = (Returned broken_tool, m').
Proof.
  destruct (@add_tool_then_get_tool unit {| self := bare_agent; env := empty_env |}
              broken_tool eq_refl) as (m' & Hadd & Hget & _).
  exists m'. split; [exact Hadd | exact Hget].
Defined.

Lemma init_registers_distinct_tools_witness :
  (exists a,
     @init unit "agent" "role" [broken_tool] (Some (memory.init 100)) empty_env =
       (Returned a, empty_env) /\
     tools a !! "broken" = Some broken_tool) /\
  (exists n,
     @init unit "agent" "role" [broken_tool; broken_tool] (Some (memory.init 100)) empty_env =
       (Raised (ValueError ("Tool with name '" +:+ n +:+ "' already exists")), empty_env)).
Proof.
  split.
  - destruct (proj1 (@init_registers_distinct_tools unit "agent" "role" [broken_tool]
                       (memory.init 100) empty_env)) as (a & Hinit & Hin & _).
    + repeat constructor. intros Hin. inversion Hin.
    + exists a. split; [exact Hinit|]. apply (Hin broken_tool). left.
  - apply (proj2 (@init_registers_distinct_tools unit "agent" "role"
                    [broken_tool; broken_tool] (memory.init 100) empty_env)).
    intros Hnodup. apply NoDup_cons in Hnodup as [Hnotin _]. apply Hnotin. left.
Defined.

End agent_registry_samples.

(** ** The LLM helper and the memory bound under [act] *)

Section agent_llm.
Import agent.
Context {W : Type} `{Collaborators W}.

(** X5. [_llm_generate] issues exactly one LLM call, with the system
    message (when it is given and not empty) before the user prompt, and
    leaves the agent as it is.  An exception of the client comes out
    unchanged; otherwise the result is the [content] entry of the response,
    and a response without that entry raises [KeyError]. *)
Theorem llm_generate_one_call (m : Machine W) (prompt : string)
    (system_message : option string) (kwargs : pydict) :
  let messages := messages_for prompt system_message in
  let r := _llm_generate prompt system_message kwargs m in
  self r.2 = self m /\
  trace (env r.2) = trace (env m) ++ [LLMGenerate messages kwargs] /\
  world (env r.2) = (generate_async messages kwargs (world (env m))).2 /\
  r.1 = match (generate_async messages kwargs (world (env m))).1 with
        | Raised e => Raised e
        | Returned response => getitem response "content"
        end.
Proof.
  intros messages r. subst messages r.
  assert (Hmsgs : match system_message with
                  | Some sm => if String.eqb sm "" then [] else [("system", sm)]
                  | None => []
                  end ++ [("user", prompt)] = messages_for prompt system_message).
  { unfold messages_for. destruct system_message as [sm|]; [|reflexivity].
    destruct (String.eqb sm ""); reflexivity. }
  unfold _llm_generate. rewrite Hmsgs. unfold record_event. run_unfold. cbn.
  destruct (generate_async (messages_for prompt system_message) kwargs (world (env m)))
    as [[response|e] w'].
  - cbn. destruct (getitem response "content"); repeat split; reflexivity.
  - cbn. repeat split; reflexivity.
Qed.

(** X6. [act] keeps the memory within its bound: if the short-term list
    held at most [max(1, bound)] items before the call, it does so after it,
    whatever the tool does, and the bound itself is not changed. *)
Theorem act_keeps_memory_bounded (m : Machine W) (action : string) (parameters : pydict) :
  let mem := memory (self m) in
  let mem' := memory (self (act action parameters m).2) in
  Z.of_nat (length (memory.short_term mem)) <= Z.max 1 (memory.max_short_term mem) ->
  memory.max_short_term mem' = memory.max_short_term mem /\
  Z.of_nat (length (memory.short_term mem')) <= Z.max 1 (memory.max_short_term mem').
Proof.
  intros mem mem' Hin. subst mem mem'.
  destruct (tools (self m) !! action) as [t|] eqn:Hlook.
  - destruct (tool.execute t parameters (env m)) as [[result|e] env'] eqn:Hexec.
    + erewrite act_tool_returns by eassumption. cbn [self snd memory with_state with_memory].
      rewrite add_observation_bound. split; [reflexivity|].
      apply add_observation_length_step. exact Hin.
    + erewrite act_tool_raises by eassumption. split; [reflexivity | exact Hin].
  - rewrite act_unknown_tool by assumption. split; [reflexivity | exact Hin].
Qed.

End agent_llm.

Lemma act_keeps_memory_bounded_witness :
  let m := {| agent.self := fixtures.research_agent_in fixtures.quiet;
              agent.env := fixtures.empty_env |} in
  let mem' := agent.memory (agent.self (@agent.act unit fixtures.quiet "web_search"
                                          [("query", PyStr "agents")] m).2) in
  memory.max_short_term mem' = 100 /\
  Z.of_nat (length (memory.short_term mem')) <= Z.max 1 (memory.max_short_term mem').
Proof.
  intros m mem'.
  apply (@act_keeps_memory_bounded unit fixtures.quiet m "web_search" [("query", PyStr "agents")]).
  vm_compute. discriminate.
Defined.

(** ** Web search tool *)

Section web_search_facts.
Import web_search.
Context {W : Type} `{Collaborators W}.

(** X7. Once its arguments are bound, [WebSearchTool.execute] never
    raises, whatever the client does and whatever [num_results] is: it
    records one search and returns a result that either succeeds without an
    error, or fails with output [None] and a non-empty error message. *)
Theorem execute_bound_never_raises (query num_results domain : pyval) (e : Env W) :
  exists r e',
    execute_bound query num_results domain e = (Returned r, e') /\
    trace e' = trace e ++ [WebSearch query domain] /\
    world e' = (search_web query domain (world e)).2 /\
    (if tool.success r
     then tool.error r = None
     else tool.output r = PyNone /\ exists msg, tool.error r = Some msg /\ msg <> "").
Proof.
  unfold execute_bound. env_unfold. cbn.
  destruct (search_web query domain (world e)) as [[found|ex] w'].
  - destruct found as [[|x l]|]; cbn.
    + finish.
    + destruct (len_gt (S (length l)) num_results) as [[|]|ex] eqn:Hgt; cbn.
      * destruct (slice_results (x :: l) num_results) as [cut|ex]; cbn; finish.
      * finish.
      * finish.
    + finish.
  - cbn. finish.
Qed.

(** X8. When the client answers a list and [num_results] is a
    non-negative integer [n], the search succeeds with the first [n] answers
    in the client's order; [result_count] is their number, at most [n]. *)
Theorem execute_bound_limits_results (query domain : pyval) (n : Z) (e : Env W)
    (answers : list pyval) (w' : W) :
  search_web query domain (world e) = (Returned (Some answers), w') ->
  0 <= n ->
  let results := take (Z.to_nat n) answers in
  execute_bound query (PyInt n) domain e =
    (Returned {| tool.success := true;
                 tool.output := PyDict [("query", query);
                                        ("results", PyList results);
                                        ("result_count", PyInt (Z.of_nat (length results)))];
                 tool.error := None |},
     {| world := w'; trace := trace e ++ [WebSearch query domain] |}) /\
  Z.of_nat (length results) <= n.
Proof.
  intros Hsearch Hn results. subst results. split; [|rewrite length_take; lia].
  unfold execute_bound. env_unfold. cbn. rewrite Hsearch.
  destruct answers as [|x l]; cbn.
  - rewrite take_nil. reflexivity.
  - unfold slice_to.
    destruct (Z.gtb_spec (Z.of_nat (S (length l))) n) as [Hgt|Hle].
    + destruct (Z.ltb_spec n 0) as [Hneg|_]; [lia|].
      destruct (take (Z.to_nat n) (x :: l)) as [|y cut] eqn:Hcut; reflexivity.
    + rewrite take_ge by (cbn [length]; lia). reflexivity.
Qed.

(** X9. A call of the tool without [query], or with a keyword that
    [execute] does not have, raises [TypeError] before anything is searched;
    [act] turns it into a failed result, and neither the environment nor the
    memory of the agent changes. *)
Theorem act_web_search_bad_arguments (m : agent.Machine W) (kwargs : pydict) :
  agent.tools (agent.self m) !! "web_search" = Some WebSearchTool ->
  dict_lookup kwargs "query" = None \/
    (exists k, k ∈ kwargs.*1 /\ k ∉ ["query"; "num_results"; "domain"]) ->
  exists msg,
    agent.act "web_search" kwargs m =
      (Returned (agent.failure_dict "web_search" (TypeError msg)),
       {| agent.self := agent.with_state (agent.self m) agent.IDLE; agent.env := agent.env m |}).
Proof.
  intros Htool Hbad.
  assert (Hraise : exists msg, execute kwargs (agent.env m) = (Raised (TypeError msg), agent.env m)).
  { unfold execute.
    destruct (find _ kwargs) as [[k v]|] eqn:Hfind; [unfold raise; eauto|].
    destruct Hbad as [Hquery|(k & Hin & Hout)].
    - rewrite Hquery. unfold raise. eauto.
    - exfalso. apply list_elem_of_fmap in Hin as ([k' v] & -> & Hin).
      apply list_elem_of_In in Hin.
      pose proof (find_none _ _ Hfind _ Hin) as Hnone. cbn in Hnone.
      apply negb_false_iff, bool_decide_eq_true in Hnone. contradiction. }
  destruct Hraise as (msg & Hraise). exists msg.
  apply (act_tool_raises m "web_search" kwargs WebSearchTool (TypeError msg) (agent.env m));
    assumption.
Qed.

End web_search_facts.

Section web_search_samples.
Import web_search fixtures.

Lemma execute_bound_limits_results_witness :
  (@execute_bound unit (finding three_results) (PyStr "agents") (PyInt 2) PyNone empty_env).1 =
    Returned {| tool.success := true;
                tool.output := PyDict [("query", PyStr "agents");
                                       ("results", PyList (take 2 three_results));
                                       ("result_count", PyInt 2)];
                tool.error := None |}.
Proof.
  pose proof (@execute_bound_limits_results unit (finding three_results)
                (PyStr "agents") PyNone 2 empty_env three_results tt eq_refl ltac:(lia))
    as [Hrun _].
  rewrite Hrun. reflexivity.
Defined.

Lemma act_web_search_bad_arguments_witness :
  exists msg,
    (@agent.act unit quiet "web_search" [("num_results", PyInt 3)]
       {| agent.self := research_agent_in quiet; agent.env := empty_env |}).1 =
      Returned (agent.failure_dict "web_search" (TypeError msg)).
Proof.
  destruct (@act_web_search_bad_arguments unit quiet
              {| agent.self := research_agent_in quiet; agent.env := empty_env |}
              [("num_results", PyInt 3)] eq_refl (or_introl eq_refl)) as (msg & Hact).
  exists msg. rewrite Hact. reflexivity.
Defined.

End web_search_samples.

(** ** Analysis and the entry points of the research agent *)

Section research_more.
Import agent research_agent.
Context {W : Type} `{Collaborators W}.

Lemma format_results_dicts results :
  Forall is_dict results -> exists lines, format_results results = Returned lines.
Proof.
  induction 1 as [|r results [d ->] _ [lines IH]]; [cbn; eauto|].
  cbn. rewrite IH. eauto.
Qed.

(** X11. On a non-empty list of result dictionaries [_analyze_results]
    never raises and leaves the agent untouched: it issues exactly one LLM
    call and returns a dictionary with a summary and a non-empty list of key
    points, also when the LLM call fails or answers without text. *)
Theorem analyze_results_always_answers (m : Machine W) (results : list pyval)
    (topic : string) :
  Forall is_dict results ->
  results <> [] ->
  exists d m',
    _analyze_results results topic m = (Returned (PyDict d), m') /\
    self m' = self m /\
    (exists messages kwargs, trace (env m') = trace (env m) ++ [LLMGenerate messages kwargs]) /\
    (exists summary, dict_lookup d "summary" = Some summary) /\
    (exists point points, dict_lookup d "key_points" = Some (PyList (point :: points))).
Proof.
  intros Hdicts Hne. destruct results as [|r results]; [contradiction|].
  destruct (format_results_dicts _ Hdicts) as [lines Hlines].
  unfold _analyze_results, _llm_generate, record_event. run_unfold. rewrite Hlines. cbn.
  match goal with |- context [generate_async ?msgs ?kw ?w] =>
    destruct (generate_async msgs kw w) as [[response|e] w'] end; cbn.
  - destruct (getitem response "content") as [analysis|e]; cbn.
    + destruct (extract_key_points analysis) as [[|p ps]|e]; cbn.
      * destruct (utcnow w') as [t w'']. cbn. eexists _, _. split; [reflexivity|].
        cbn. repeat split; eauto.
      * destruct (utcnow w') as [t w'']. cbn. eexists _, _. split; [reflexivity|].
        cbn. repeat split; eauto.
      * eexists _, _. split; [reflexivity|]. cbn. repeat split; eauto.
    + eexists _, _. split; [reflexivity|]. cbn. repeat split; eauto.
  - eexists _, _. split; [reflexivity|]. cbn. repeat split; eauto.
Qed.

Lemma research_topic_fails (m : Machine W) topic max_results :
  fails_on_first_search (research_topic topic max_results m).
Proof.
  destruct (research_topic_always_raises m topic max_results) as (m' & Hrun & Hstate).
  unfold fails_on_first_search. rewrite Hrun. split; [reflexivity | exact Hstate].
Qed.

(** X12. Because [act] answers a dictionary whose [success] entry
    [research_topic] reads as an attribute, every entry point of the research
    agent that searches ends in the same [AttributeError] with the state at
    error: [research_topic], [get_latest_developments], [research_trends] and
    [compare_tools] on a non-empty list.  [compare_tools] on the empty list
    returns its error object and touches nothing. *)
Theorem research_entry_points_fail (m : Machine W) :
  (forall topic max_results, fails_on_first_search (research_topic topic max_results m)) /\
  (forall days, fails_on_first_search (get_latest_developments days m)) /\
  fails_on_first_search (research_trends m) /\
  (forall tool_name tool_names,
     fails_on_first_search (compare_tools (tool_name :: tool_names) m)) /\
  compare_tools [] m =
    (Returned (PyDict [("error", PyStr "No tools provided for comparison")]), m).
Proof.
  split; [intros; apply research_topic_fails|].
  split; [intros; apply research_topic_fails|].
  split; [apply research_topic_fails|].
  split; [intros; apply research_topic_fails | reflexivity].
Qed.

End research_more.

Lemma analyze_results_always_answers_witness :
  exists d m',
    @research_agent._analyze_results unit fixtures.quiet fixtures.three_results "agents"
      {| agent.self := fixtures.bare_agent; agent.env := fixtures.empty_env |} =
      (Returned (PyDict d), m') /\
    exists point points, dict_lookup d "key_points" = Some (PyList (point :: points)).
Proof.
  destruct (@analyze_results_always_answers unit fixtures.quiet
              {| agent.self := fixtures.bare_agent; agent.env := fixtures.empty_env |}
              fixtures.three_results "agents")
    as (d & m' & Hrun & _ & _ & _ & Hpoints).
  - repeat constructor; eexists; reflexivity.
  - discriminate.
  - exists d, m'. split; [exact Hrun | exact Hpoints].
Defined.

(** ** Deduplication under a positive limit *)

Section dedup_more.
Import research_agent.

Lemma first_by_url_fixed l seen :
  Forall (fun result => is_Some (url_key result)) l ->
  NoDup (omap url_key l) ->
  (forall k, k ∈ omap url_key l -> k ∉ seen) ->
  first_by_url l seen = l.
Proof.
  revert seen. induction l as [|r l IH]; intros seen Hkeys Hnodup Hfresh; [reflexivity|].
  apply Forall_cons in Hkeys as [[k Hk] Hkeys].
  change (omap url_key (r :: l))
    with (match url_key r with Some y => y :: omap url_key l | None => omap url_key l end)
    in Hnodup, Hfresh.
  rewrite Hk in Hnodup, Hfresh. apply NoDup_cons in Hnodup as [Hnotin Hnodup].
  cbn [first_by_url]. rewrite Hk.
  rewrite bool_decide_false by (apply Hfresh; left).
  f_equal. apply IH; [exact Hkeys | exact Hnodup|].
  intros k' Hk' Hin. apply elem_of_cons in Hin as [->|Hin]; [contradiction|].
  apply (Hfresh k'); [right; exact Hk' | exact Hin].
Qed.

(** X10. With [max_results >= 1] and well-formed results, the
    deduplication step of [research_topic] returns a subsequence of the
    results in which every result has a URL, no URL occurs twice, each result
    is the first one of its URL, and there are at most [max_results] results;
    deduplicating what it returned changes nothing. *)
Theorem deduplicate_under_positive_limit (all_results : list pyval) (max_results : Z) :
  Forall well_formed all_results ->
  1 <= max_results ->
  exists kept,
    deduplicate all_results max_results = Returned kept /\
    sublist kept all_results /\
    Forall (fun result => is_Some (url_key result)) kept /\
    NoDup (omap url_key kept) /\
    (forall result k, result ∈ kept -> url_key result = Some k ->
       snd <$> list_find (fun r => url_key r = Some k) all_results = Some result) /\
    Z.of_nat (length kept) <= max_results /\
    deduplicate kept max_results = Returned kept.
Proof.
  intros Hwf Hmax.
  destruct (deduplicate_keeps_first_by_url all_results max_results Hwf Hmax)
    as (kept & Hrun & Hsub & Hkeys & Hnodup & Hfirst & Hlen).
  exists kept. repeat (split; [assumption|]).
  rewrite deduplicate_refines.
  - rewrite first_by_url_fixed; [|exact Hkeys|exact Hnodup|intros k _ Hin; inversion Hin].
    rewrite take_ge by lia. reflexivity.
  - rewrite Forall_forall in Hwf |- *. intros r Hr. apply Hwf.
    eapply elem_of_sublist; eassumption.
Qed.

Lemma deduplicate_under_positive_limit_witness :
  deduplicate fixtures.three_results 5 = Returned (take 2 fixtures.three_results) /\
  deduplicate (take 2 fixtures.three_results) 5 = Returned (take 2 fixtures.three_results).
Proof.
  destruct (deduplicate_under_positive_limit fixtures.three_results 5)
    as (kept & Hrun & _ & _ & _ & _ & _ & Hagain).
  - repeat constructor; eexists; (split; [reflexivity|]); intros u [= <-] _; eexists; reflexivity.
  - lia.
  - assert (Hkept : kept = take 2 fixtures.three_results).
    { assert (E : deduplicate fixtures.three_results 5 =
                  Returned (take 2 fixtures.three_results)) by (vm_compute; reflexivity).
      congruence. }
    subst kept. split; assumption.
Defined.

End dedup_more.

(** ** Text analysis and headers of the scrapers *)

Section scraper_text_facts.
Import base_scraper.

Lemma lower_ascii_idem c : lower_ascii (lower_ascii c) = lower_ascii c.
Proof. destruct c as [[] [] [] [] [] [] [] []]; reflexivity. Qed.

Lemma lower_idem s : lower (lower s) = lower s.
Proof.
  induction s as [|c s IH]; [reflexivity|].
  cbn [lower]. rewrite lower_ascii_idem, IH. reflexivity.
Qed.

Lemma filter_sublist {A} (P : A -> Prop) `{forall x, Decision (P x)} (l : list A) :
  sublist (filter P l) l.
Proof.
  induction l as [|x l IH]; [constructor|].
  rewrite filter_cons. destruct (decide (P x)); [apply sublist_skip | apply sublist_cons]; exact IH.
Qed.

(** X13. The technologies found in a text are vocabulary terms in
    vocabulary order, none twice; a term is found exactly when its lowercase
    form occurs in the lowercased text; and the case of the text does not
    matter. *)
Theorem extract_technologies_sound (text : string) :
  sublist (_extract_technologies text) tech_keywords /\
  NoDup (_extract_technologies text) /\
  (forall tech, tech ∈ _extract_technologies text <->
                tech ∈ tech_keywords /\ contains (lower tech) (lower text) = true) /\
  _extract_technologies (lower text) = _extract_technologies text.
Proof.
  unfold _extract_technologies. split; [apply filter_sublist|]. split; [|split].
  - apply NoDup_filter. apply (bool_decide_unpack _). vm_compute. exact I.
  - intros tech. rewrite list_elem_of_filter. tauto.
  - rewrite lower_idem. reflexivity.
Qed.

Lemma impact_entry_key text_lower entry found :
  impact_entry text_lower entry = Some found ->
  fst found = fst entry /\ snd found = found_keywords text_lower (snd entry) /\ snd found <> [].
Proof.
  unfold impact_entry. destruct (found_keywords text_lower (snd entry)) as [|kw kws] eqn:Hf.
  - discriminate.
  - intros [= <-]. cbn. repeat split. discriminate.
Qed.

Lemma omap_fst_sublist {A B} (f : A * B -> option (A * B)) (l : list (A * B)) :
  (forall x y, f x = Some y -> fst y = fst x) ->
  sublist (omap f l).*1 l.*1.
Proof.
  intros Hf. induction l as [|x l IH]; [constructor|].
  change (omap f (x :: l)) with (match f x with Some y => y :: omap f l | None => omap f l end).
  destruct (f x) as [y|] eqn:Hx.
  - rewrite !fmap_cons, (Hf x y Hx). apply sublist_skip, IH.
  - rewrite fmap_cons. apply sublist_cons, IH.
Qed.

(** X14. The job-impact mapping lists categories in the fixed order
    junior, mid, task, role, each at most once; a category is listed exactly
    with the keywords of it that occur in the lowercased text, in keyword
    order, and only when there is at least one; the case of the text does not
    matter. *)
Theorem analyze_job_impact_sound (text : string) :
  sublist (_analyze_job_impact text).*1 ["junior"; "mid"; "task"; "role"] /\
  (forall category found,
     (category, found) ∈ _analyze_job_impact text <->
     exists keywords,
       (category, keywords) ∈ impact_keywords /\
       found = found_keywords (lower text) keywords /\ found <> []) /\
  _analyze_job_impact (lower text) = _analyze_job_impact text.
Proof.
  unfold _analyze_job_impact. split; [|split].
  - apply (omap_fst_sublist (impact_entry (lower text)) impact_keywords).
    intros x y Hxy. apply impact_entry_key in Hxy as [Hk _]. exact Hk.
  - intros category found. rewrite list_elem_of_omap. split.
    + intros ([c kws] & Hin & Hentry). apply impact_entry_key in Hentry as (Hk & Hv & Hne).
      cbn in *. subst. eauto.
    + intros (keywords & Hin & Hfound & Hne). exists (category, keywords).
      split; [exact Hin|]. unfold impact_entry. cbn [fst snd]. rewrite <- Hfound.
      destruct found; [contradiction | reflexivity].
  - rewrite lower_idem. reflexivity.
Qed.

Lemma header_get_set_eq d k v : header_get (header_set d k v) k = Some v.
Proof.
  induction d as [|[k' v'] d IH]; cbn.
  - rewrite String.eqb_refl. reflexivity.
  - destruct (String.eqb k' k) eqn:Hk; cbn.
    + rewrite String.eqb_refl. reflexivity.
    + rewrite Hk. exact IH.
Qed.

Lemma header_get_set_ne d k v k0 :
  k0 <> k -> header_get (header_set d k v) k0 = header_get d k0.
Proof.
  intros Hne. induction d as [|[k' v'] d IH]; cbn.
  - destruct (String.eqb_spec k k0); [congruence | reflexivity].
  - destruct (String.eqb_spec k' k) as [->|Hk]; cbn.
    + destruct (String.eqb_spec k k0); [congruence | reflexivity].
    + destruct (String.eqb_spec k' k0); [reflexivity | exact IH].
Qed.

Context {W T : Type} `{Network W T}.

(** X15. Whatever headers the caller passes, its own [User-Agent]
    included, the headers that [_make_request] sends carry the user agent
    that [self.ua.random] gives after the clock has been read and the rate
    limit waited for, and the fixed [Accept] and [Accept-Language] values;
    every other header of the caller is sent as given, and the scraper is
    left as it is. *)
Theorem prepare_fixes_agent_headers (m : Machine W T) (headers : list (string * string)) :
  let now := (time (world m)).1 in
  let started := (time (world m)).2 in
  let time_since_last := t_sub now (last_request_time (self m)) in
  let waited :=
    if t_lt time_since_last (rate_limit (self m))
    then sleep (t_sub (rate_limit (self m)) time_since_last) started
    else started in
  exists headers',
    prepare headers m =
      (Returned headers', {| self := self m; world := (ua_random waited).2 |}) /\
    header_get headers' "User-Agent" = Some (ua_random waited).1 /\
    header_get headers' "Accept" =
      Some "text/html,application/xhtml+xml,application/xml;q=0.9,image/webp,*/*;q=0.8" /\
    header_get headers' "Accept-Language" = Some "en-US,en;q=0.5" /\
    forall k, k ∉ ["User-Agent"; "Accept"; "Accept-Language"] ->
              header_get headers' k = header_get headers k.
Proof.
  cbv zeta.
  assert (Hhdr : forall ua,
            let headers' := headers_update headers
                         [("User-Agent", ua);
                          ("Accept", "text/html,application/xhtml+xml,application/xml;q=0.9,image/webp,*/*;q=0.8");
                          ("Accept-Language", "en-US,en;q=0.5")] in
            header_get headers' "User-Agent" = Some ua /\
            header_get headers' "Accept" =
              Some "text/html,application/xhtml+xml,application/xml;q=0.9,image/webp,*/*;q=0.8" /\
            header_get headers' "Accept-Language" = Some "en-US,en;q=0.5" /\
            forall k, k ∉ ["User-Agent"; "Accept"; "Accept-Language"] ->
                      header_get headers' k = header_get headers k).
  { intros ua. cbn. unfold headers_update. cbn [foldl fst snd].
    split; [|split; [|split]].
    - rewrite !header_get_set_ne by discriminate. apply header_get_set_eq.
    - rewrite header_get_set_ne by discriminate. apply header_get_set_eq.
    - apply header_get_set_eq.
    - intros k Hk. rewrite !header_get_set_ne; [reflexivity|..];
        intros ->; apply Hk; set_solver. }
  unfold prepare, on_world, mbind, run_bind, bind, mret, run_ret, ret, get.
  destruct (time (world m)) as [t w0]. cbn [fst snd self world].
  destruct (t_lt (t_sub t (last_request_time (self m))) (rate_limit (self m)));
    cbn [self world];
    destruct (ua_random _) as [ua w1]; cbn [fst snd];
    eexists; (split; [reflexivity | apply Hhdr]).
Qed.

End scraper_text_facts.

(** ** Single sources and failing scrapers *)

Section manager_more.
Import base_scraper scrapers.
Context {W : Type}.

Lemma find_source_none (entries : list (string * Scraper W)) src :
  src ∉ entries.*1 -> find (fun entry => String.eqb (fst entry) src) entries = None.
Proof.
  induction entries as [|[n s] entries IH]; intros Hnot; [reflexivity|].
  rewrite fmap_cons in Hnot. apply not_elem_of_cons in Hnot as [Hne Hnot]. cbn in *.
  destruct (String.eqb_spec n src); [congruence | apply IH, Hnot].
Qed.

Lemma find_source_some (entries : list (string * Scraper W)) src s :
  NoDup entries.*1 -> (src, s) ∈ entries ->
  find (fun entry => String.eqb (fst entry) src) entries = Some (src, s).
Proof.
  induction entries as [|[n s'] entries IH]; intros Hnodup Hin; [inversion Hin|].
  rewrite fmap_cons in Hnodup. apply NoDup_cons in Hnodup as [Hnotin Hnodup]. cbn.
  apply elem_of_cons in Hin as [[= <- <-]|Hin].
  - rewrite String.eqb_refl. reflexivity.
  - destruct (String.eqb_spec n src) as [->|Hne]; [|apply IH; assumption].
    exfalso. apply Hnotin. apply (list_elem_of_fmap_2 fst _ _ Hin).
Qed.

(** X16. [scrape_single] on a name that is not registered raises
    [ValueError] naming the source and runs no scraper: the world is as
    before.  On a registered name it is exactly that scraper's [scrape]:
    its articles unsorted, or its exception. *)
Theorem scrape_single_by_name (mgr : ScraperManager W) (src : string)
    (query : option string) (w : W) :
  (src ∉ (scrapers mgr).*1 ->
   scrape_single mgr src query w = (Raised (ValueError ("Unknown scraper: " +:+ src)), w)) /\
  (forall s,
     NoDup (scrapers mgr).*1 -> (src, s) ∈ scrapers mgr ->
     scrape_single mgr src query w = scrape s query w).
Proof.
  split.
  - intros Hnot. unfold scrape_single. rewrite find_source_none by exact Hnot. reflexivity.
  - intros s Hnodup Hin. unfold scrape_single.
    rewrite (find_source_some _ _ s Hnodup Hin). reflexivity.
Qed.

Lemma for_each_app {S A B} (xs ys : list A) (acc : B) (body : A -> B -> Run S B) (s : S) :
  for_each (xs ++ ys) acc body s =
    match for_each xs acc body s with
    | (Returned acc', s') => for_each ys acc' body s'
    | (Raised e, s') => (Raised e, s')
    end.
Proof.
  revert acc s. induction xs as [|x xs IH]; intros acc s; [reflexivity|].
  cbn [app for_each]. unfold bind. destruct (body x acc s) as [[acc'|e] s']; [apply IH | reflexivity].
Qed.

(** X17. A scraper that raises, without having changed the world, does
    not affect an aggregation run: [scrape_all] returns what it returns
    without that scraper registered. *)
Theorem scrape_all_skips_failing_scraper (before after : list (string * Scraper W))
    (n : string) (s : Scraper W) (query : option string) (w : W) :
  (forall w0, exists e, scrape s query w0 = (Raised e, w0)) ->
  scrape_all {| scrapers := before ++ (n, s) :: after |} query w =
  scrape_all {| scrapers := before ++ after |} query w.
Proof.
  intros Hfails. unfold scrape_all, collect, mbind, run_bind, bind. cbn [scrapers].
  rewrite !for_each_app.
  destruct (for_each before [] _ w) as [[acc|e] w1]; [|reflexivity].
  cbn [for_each]. unfold bind at 1, try_except at 1, mbind, run_bind, bind. cbn [snd].
  destruct (Hfails w1) as [e He]. rewrite He. reflexivity.
Qed.

End manager_more.

Section manager_samples.
Import base_scraper scrapers fixtures.

Lemma scrape_single_by_name_witness :
  @scrape_single unit {| scrapers := [("tech_news", working_scraper)] |} "blogs" None tt =
    (Raised (ValueError "Unknown scraper: blogs"), tt) /\
  @scrape_single unit {| scrapers := [("tech_news", working_scraper)] |} "tech_news" None tt =
    (Returned [fixtures.article "old" 1; fixtures.article "new" 2], tt).
Proof.
  pose proof (@scrape_single_by_name unit {| scrapers := [("tech_news", working_scraper)] |})
    as Hsingle.
  split.
  - apply (proj1 (Hsingle "blogs" None tt)). cbn.
    intros Hin. apply elem_of_cons in Hin as [Hin|Hin]; [discriminate | inversion Hin].
  - rewrite (proj2 (Hsingle "tech_news" None tt) working_scraper); [reflexivity| |left].
    cbn. repeat constructor. intros Hin. inversion Hin.
Defined.

Lemma scrape_all_skips_failing_scraper_witness :
  @scrape_all unit {| scrapers := [("broken", failing_scraper); ("tech_news", working_scraper)] |}
    None tt =
    (Returned [fixtures.article "new" 2; fixtures.article "old" 1], tt).
Proof.
  assert (Hfails : forall w0 : unit, exists e, scrape failing_scraper None w0 = (Raised e, w0))
    by (intros w0; eexists; reflexivity).
  eapply eq_trans.
  - exact (@scrape_all_skips_failing_scraper unit [] [("tech_news", working_scraper)]
             "broken" failing_scraper None tt Hfails).
  - reflexivity.
Defined.

End manager_samples.

(** ** Feed scraper *)

Section feed_facts.
Import base_scraper tech_news_scraper.
Context {W : Type} `{Feeds W}.

Lemma build_article_well self entry u (w w' : W) a :
  u <> "" ->
  build_article self entry u w = (Returned (Some a), w') ->
  url a = u /\ scraped_well a /\
  exists art w1, article_download u w = (Returned art, w1) /\ content a = article_text art.
Proof.
  intros Hu. unfold build_article. feed_unfold.
  destruct (article_download u w) as [[art|e] w1] eqn:Hdl; [|discriminate].
  destruct (published_parsed entry) as [[|z zs]|].
  - destruct (clock w1) as [t w2]. intros [= <- <-]. unfold scraped_well.
    cbn [url content ai_related technologies job_impact]. eauto 10.
  - destruct (make_datetime (take 6 (z :: zs))) as [t|e]; [|discriminate].
    intros [= <- <-]. unfold scraped_well.
    cbn [url content ai_related technologies job_impact]. eauto 10.
  - destruct (clock w1) as [t w2]. intros [= <- <-]. unfold scraped_well.
    cbn [url content ai_related technologies job_impact]. eauto 10.
Qed.

(** X18. [_process_entry] never raises.  An entry without a link, with
    an empty link, or that fails the relevance test is skipped without any
    download: the answer is [None] and the world is as before. *)
Theorem process_entry_skips_without_download (self : TechNewsScraper) (entry : FeedEntry)
    (w : W) :
  (exists r w', _process_entry self entry w = (Returned r, w')) /\
  (link entry = None \/ link entry = Some "" \/ is_relevant entry = false ->
   _process_entry self entry w = (Returned None, w)).
Proof.
  unfold _process_entry. split.
  - destruct (link entry) as [u|]; [|feed_unfold; eauto].
    destruct (String.eqb u ""); [feed_unfold; eauto|].
    destruct (is_relevant entry); cbn [negb]; [|feed_unfold; eauto].
    unfold try_except. destruct (build_article self entry u w) as [[r|e] w']; feed_unfold; eauto.
  - intros [Hlink|[Hlink|Hrel]].
    + rewrite Hlink. reflexivity.
    + rewrite Hlink. reflexivity.
    + rewrite Hrel. destruct (link entry) as [u|]; [|reflexivity].
      destruct (String.eqb u ""); reflexivity.
Qed.

(** X19. An article that [_process_entry] returns comes from an entry
    with a non-empty link that passed the relevance test: its URL is that
    link, its content is the text downloaded from it, it is marked
    AI-related, and its technologies and job impact are those extracted from
    its content. *)
Theorem process_entry_article (self : TechNewsScraper) (entry : FeedEntry) (w w' : W)
    (a : ScrapedArticle) :
  _process_entry self entry w = (Returned (Some a), w') ->
  link entry = Some (url a) /\
  is_relevant entry = true /\
  scraped_well a /\
  exists art w1, article_download (url a) w = (Returned art, w1) /\ content a = article_text art.
Proof.
  unfold _process_entry.
  destruct (link entry) as [u|]; [|feed_unfold; discriminate].
  destruct (String.eqb_spec u "") as [->|Hu]; [feed_unfold; discriminate|].
  destruct (is_relevant entry); cbn [negb]; [|feed_unfold; discriminate].
  unfold try_except.
  destruct (build_article self entry u w) as [[r|e] w1] eqn:Hbuild; [|feed_unfold; discriminate].
  intros [= -> ->].
  destruct (build_article_well self entry u w w' a Hu Hbuild) as (Hurl & Hwell & Hdl).
  subst u. repeat split; try apply Hwell. exact Hdl.
Qed.

Lemma process_entry_cases (self : TechNewsScraper) (entry : FeedEntry) (w : W) :
  exists r w',
    _process_entry self entry w = (Returned r, w') /\
    forall a, r = Some a -> scraped_well a.
Proof.
  unfold _process_entry.
  destruct (link entry) as [u|]; [|feed_unfold; eexists _, _; split; [reflexivity|discriminate]].
  destruct (String.eqb_spec u "") as [->|Hu];
    [feed_unfold; eexists _, _; split; [reflexivity|discriminate]|].
  destruct (is_relevant entry); cbn [negb];
    [|feed_unfold; eexists _, _; split; [reflexivity|discriminate]].
  unfold try_except.
  destruct (build_article self entry u w) as [[r|e] w1] eqn:Hbuild.
  - eexists _, _. split; [reflexivity|]. intros a ->.
    apply (build_article_well self entry u w w1 a Hu Hbuild).
  - feed_unfold. eexists _, _. split; [reflexivity|discriminate].
Qed.

(** The loop over the entries of one feed. *)
Lemma entries_loop (self : TechNewsScraper) (entries : list FeedEntry)
    (articles : list ScrapedArticle) (w : W) :
  exists articles' w',
    for_each entries articles
      (fun entry articles =>
         try_except
           (article ← _process_entry self entry;
            match article with
            | Some a => mret (articles ++ [a])
            | None => mret articles
            end)
           (fun e => mret articles)) w = (Returned articles', w') /\
    (length articles' <= length articles + length entries)%nat /\
    (Forall scraped_well articles -> Forall scraped_well articles').
Proof.
  revert articles w. induction entries as [|entry entries IH]; intros articles w.
  - exists articles, w. cbn. unfold ret. split; [reflexivity|]. split; [lia | auto].
  - cbn [for_each]. unfold bind at 1, try_except at 1. unfold mbind at 1, run_bind, bind at 1.
    destruct (process_entry_cases self entry w) as (r & w1 & Hrun & Hwell). rewrite Hrun.
    destruct r as [a|]; unfold mret, run_ret, ret.
    + destruct (IH (articles ++ [a]) w1) as (articles' & w' & Hloop & Hlen & Hall).
      exists articles', w'. split; [exact Hloop|]. split.
      * rewrite length_app in Hlen. cbn [length] in *. lia.
      * intros Hacc. apply Hall. apply Forall_app. split; [exact Hacc|].
        constructor; [apply Hwell; reflexivity | constructor].
    + destruct (IH articles w1) as (articles' & w' & Hloop & Hlen & Hall).
      exists articles', w'. split; [exact Hloop|]. split; [cbn [length]; lia | exact Hall].
Qed.

(** X20. [scrape] never raises, whatever the feeds and the downloads do.
    It returns at most ten articles for each configured feed, every one of
    them marked AI-related, with a non-empty URL and with the technologies
    and job impact extracted from its own content. *)
Theorem scrape_never_raises (self : TechNewsScraper) (query : option string) (w : W) :
  exists articles w',
    scrape self query w = (Returned articles, w') /\
    (length articles <= 10 * length (feeds self))%nat /\
    Forall scraped_well articles.
Proof.
  unfold scrape.
  assert (Hloop : forall urls (articles : list ScrapedArticle) (w0 : W),
    exists articles' w',
      for_each urls articles
        (fun feed_url articles =>
           try_except
             (entries ← tech_news_scraper.on_world (feedparser_parse feed_url);
              for_each (take 10 entries) articles
                (fun entry articles =>
                   try_except
                     (article ← _process_entry self entry;
                      match article with
                      | Some a => mret (articles ++ [a])
                      | None => mret articles
                      end)
                     (fun e => mret articles)))
             (fun e => mret articles)) w0 = (Returned articles', w') /\
      (length articles' <= length articles + 10 * length urls)%nat /\
      (Forall scraped_well articles -> Forall scraped_well articles')).
  { unfold mbind, run_bind, mret, run_ret.
    induction urls as [|feed_url urls IH]; intros articles w0.
    - exists articles, w0. cbn. unfold ret. split; [reflexivity|]. split; [lia | auto].
    - cbn [for_each]. unfold bind at 1, try_except at 1, bind at 1.
      unfold tech_news_scraper.on_world.
      destruct (feedparser_parse feed_url w0) as [[entries|e] w1].
      + destruct (entries_loop self (take 10 entries) articles w1)
          as (articles1 & w2 & Hentries & Hlen1 & Hall1).
        unfold mbind, run_bind, mret, run_ret in Hentries. rewrite Hentries.
        destruct (IH articles1 w2) as (articles' & w' & Hrest & Hlen & Hall).
        exists articles', w'. split; [exact Hrest|]. split.
        * rewrite length_take in Hlen1. cbn [length]. lia.
        * intros Hacc. apply Hall, Hall1, Hacc.
      + unfold ret at 1.
        destruct (IH articles w1) as (articles' & w' & Hrest & Hlen & Hall).
        exists articles', w'. split; [exact Hrest|]. split; [cbn [length]; lia | exact Hall]. }
  destruct (Hloop (feeds self) [] w) as (articles & w' & Hrun & Hlen & Hall).
  exists articles, w'. split; [exact Hrun|]. split; [cbn [length] in Hlen; lia|].
  apply Hall. constructor.
Qed.

End feed_facts.

Section feed_samples.
Import base_scraper tech_news_scraper fixtures.

Lemma process_entry_article_witness :
  exists a,
    @_process_entry unit sample_feeds init sample_entry tt = (Returned (Some a), tt) /\
    url a = "https://news.example/copilot" /\
    technologies a = ["Docker"; "Kubernetes"].
Proof.
  assert (Hrun : exists a, @_process_entry unit sample_feeds init sample_entry tt =
                             (Returned (Some a), tt)).
  { eexists. vm_compute. reflexivity. }
  destruct Hrun as [a Hrun]. exists a. split; [exact Hrun|].
  destruct (@process_entry_article unit sample_feeds init sample_entry tt tt a Hrun)
    as (Hlink & _ & (_ & _ & Htech & _) & (art & w1 & Hdl & Hcontent)).
  split.
  - cbn in Hlink. congruence.
  - rewrite Htech, Hcontent. cbn in Hdl. injection Hdl as <- _. vm_compute. reflexivity.
Defined.

End feed_samples.

(** ** LLM client *)

Section llm_facts.
Import llm_client.
Context {W : Type} `{OpenAI W}.

Lemma generate_async_unusable (cfg : LLMConfig) (messages : pyval) (kwargs : pydict) (w : W) :
  provider cfg <> "openai" \/ openai_api_key cfg = None \/ openai_api_key cfg = Some "" ->
  exists msg,
    generate_async (init cfg) messages kwargs w = (Raised (Exc "NotImplementedError" msg), w).
Proof.
  intros Hbad. unfold generate_async, init. cbn [config async_openai_client].
  destruct (String.eqb_spec (provider cfg) "openai") as [Hp|Hp]; cbn [andb];
    [|unfold raise; eauto].
  destruct Hbad as [Hbad|[Hkey|Hkey]]; [contradiction| |]; rewrite Hkey; cbn;
    unfold raise; eauto.
Qed.

(** X21. A client built from a configuration whose provider is not
    [openai], or that has no API key or an empty one, raises
    [NotImplementedError] on every [generate_async] and never reaches the
    API: the world is as before.  The default configuration is such a one. *)
Theorem generate_async_needs_key (cfg : LLMConfig) (messages : pyval) (kwargs : pydict)
    (w : W) :
  (provider cfg <> "openai" \/ openai_api_key cfg = None \/ openai_api_key cfg = Some "" ->
   exists msg,
     generate_async (init cfg) messages kwargs w = (Raised (Exc "NotImplementedError" msg), w)) /\
  (exists msg,
     generate_async (init default_config) messages kwargs w =
       (Raised (Exc "NotImplementedError" msg), w)).
Proof.
  split; [apply generate_async_unusable|].
  apply generate_async_unusable. right. left. reflexivity.
Qed.

(** With a key, [generate_async] is one call of the API on the request
    parameters; its exception comes out unchanged. *)
Lemma generate_async_with_key (cfg : LLMConfig) (key : string) (messages : pyval)
    (kwargs : pydict) (w : W) :
  provider cfg = "openai" -> openai_api_key cfg = Some key -> key <> "" ->
  generate_async (init cfg) messages kwargs w =
    match chat_completions_create (request_params cfg messages kwargs) w with
    | (Returned response, w') =>
        (Returned (PyDict [("content", content response);
                           ("usage", usage response);
                           ("model", PyStr (completion_model response));
                           ("finish_reason", finish_reason response)]), w')
    | (Raised e, w') => (Raised e, w')
    end.
Proof.
  intros Hp Hkey Hne. unfold generate_async, _generate_openai_async, init.
  cbn [config async_openai_client]. rewrite Hp, Hkey.
  destruct (String.eqb_spec key ""); [contradiction|]. cbn.
  unfold try_except, mbind, run_bind, bind, mret, run_ret, ret, raise.
  destruct (chat_completions_create _ w) as [[response|e] w']; reflexivity.
Qed.

Lemma dict_lookup_set_eq d k v : dict_lookup (dict_set d k v) k = Some v.
Proof.
  induction d as [|[k' v'] d IH]; cbn.
  - rewrite String.eqb_refl. reflexivity.
  - destruct (String.eqb k' k) eqn:Hk; cbn.
    + rewrite String.eqb_refl. reflexivity.
    + rewrite Hk. exact IH.
Qed.

Lemma dict_lookup_set_ne d k v k0 :
  k0 <> k -> dict_lookup (dict_set d k v) k0 = dict_lookup d k0.
Proof.
  intros Hne. induction d as [|[k' v'] d IH]; cbn.
  - destruct (String.eqb_spec k k0); [congruence | reflexivity].
  - destruct (String.eqb_spec k' k) as [->|Hk]; cbn.
    + destruct (String.eqb_spec k k0); [congruence | reflexivity].
    + destruct (String.eqb_spec k' k0); [reflexivity | exact IH].
Qed.

(** The value under a key after the unpacking of [kwargs]: the last one
    that [kwargs] gives it, or the one from before. *)
Lemma dict_lookup_update d kwargs k :
  dict_lookup (dict_update d kwargs) k =
    match dict_lookup (reverse kwargs) k with
    | Some v => Some v
    | None => dict_lookup d k
    end.
Proof.
  unfold dict_update. induction kwargs as [|[k' v'] kwargs IH] using rev_ind; [reflexivity|].
  rewrite foldl_app, reverse_app. cbn [foldl fst snd reverse app dict_lookup].
  change (reverse [(k', v')]) with [(k', v')]. cbn [app dict_lookup].
  destruct (String.eqb_spec k' k) as [->|Hne].
  - apply dict_lookup_set_eq.
  - rewrite dict_lookup_set_ne by congruence. exact IH.
Qed.

Lemma dict_lookup_reverse (d : pydict) k :
  NoDup d.*1 -> dict_lookup (reverse d) k = dict_lookup d k.
Proof.
  induction d as [|[k' v'] d IH]; intros Hnodup; [reflexivity|].
  rewrite fmap_cons in Hnodup. apply NoDup_cons in Hnodup as [Hnotin Hnodup].
  rewrite reverse_cons. cbn [dict_lookup].
  assert (Happ : forall d1 d2, dict_lookup (d1 ++ d2) k =
                   match dict_lookup d1 k with Some v => Some v | None => dict_lookup d2 k end).
  { intros d1 d2. induction d1 as [|[k1 v1] d1 IH1]; [reflexivity|]. cbn.
    destruct (String.eqb k1 k); [reflexivity | exact IH1]. }
  rewrite Happ, (IH Hnodup). cbn [dict_lookup].
  destruct (String.eqb_spec k' k) as [->|Hne].
  - assert (Hnone : dict_lookup d k = None).
    { clear -Hnotin. induction d as [|[k1 v1] d IHd]; [reflexivity|]. cbn.
      rewrite fmap_cons in Hnotin. apply not_elem_of_cons in Hnotin as [Hne Hnotin].
      cbn in Hne. destruct (String.eqb_spec k1 k); [congruence | apply IHd, Hnotin]. }
    rewrite Hnone. reflexivity.
  - destruct (dict_lookup d k); reflexivity.
Qed.

(** X22. [messages] is a parameter of [_generate_openai_async] by name,
    so it is never among the keyword arguments collected behind it.  In the
    parameters sent to the API, [messages] is the argument of the call; every
    keyword argument of the caller stands under its key, overriding the
    configured [model], [temperature] and [max_tokens] when it names one of
    them; a parameter the caller does not name keeps the configured value. *)
Theorem request_params_override (cfg : LLMConfig) (messages : pyval) (kwargs : pydict)
    (k : string) :
  NoDup kwargs.*1 ->
  "messages" ∉ kwargs.*1 ->
  dict_lookup (request_params cfg messages kwargs) "messages" = Some messages /\
  dict_lookup (request_params cfg messages kwargs) k =
    match dict_lookup kwargs k with
    | Some v => Some v
    | None =>
        dict_lookup [("model", PyStr (model cfg)); ("messages", messages);
                     ("temperature", PyFloat (temperature cfg));
                     ("max_tokens", PyInt (max_tokens cfg))] k
    end.
Proof.
  intros Hnodup Hmessages.
  assert (Hlookup : forall k',
            dict_lookup (request_params cfg messages kwargs) k' =
              match dict_lookup kwargs k' with
              | Some v => Some v
              | None =>
                  dict_lookup [("model", PyStr (model cfg)); ("messages", messages);
                               ("temperature", PyFloat (temperature cfg));
                               ("max_tokens", PyInt (max_tokens cfg))] k'
              end).
  { intros k'. unfold request_params.
    rewrite dict_lookup_update, dict_lookup_reverse by exact Hnodup. reflexivity. }
  split; [|apply Hlookup].
  rewrite Hlookup.
  assert (Hnone : dict_lookup kwargs "messages" = None).
  { clear -Hmessages. induction kwargs as [|[k1 v1] d IHd]; [reflexivity|].
    rewrite fmap_cons in Hmessages. apply not_elem_of_cons in Hmessages as [Hne Hnotin].
    cbn in Hne. cbn. destruct (String.eqb_spec k1 "messages"); [congruence | apply IHd, Hnotin]. }
  rewrite Hnone. reflexivity.
Qed.

End llm_facts.

Lemma request_params_override_witness :
  dict_lookup (llm_client.request_params llm_client.default_config (PyList [])
                 [("temperature", PyFloat (7 # 10)); ("max_tokens", PyInt 1000)])
              "messages" = Some (PyList []) /\
  dict_lookup (llm_client.request_params llm_client.default_config (PyList [])
                 [("temperature", PyFloat (7 # 10)); ("max_tokens", PyInt 1000)])
              "max_tokens" = Some (PyInt 1000) /\
  dict_lookup (llm_client.request_params llm_client.default_config (PyList [])
                 [("temperature", PyFloat (7 # 10)); ("max_tokens", PyInt 1000)])
              "model" = Some (PyStr "gpt-4-turbo-preview").
Proof.
  assert (Hnodup : NoDup [("temperature", PyFloat (7 # 10)); ("max_tokens", PyInt 1000)].*1).
  { cbn. repeat constructor; intros Hin; repeat (apply elem_of_cons in Hin as [Hin|Hin];
      [discriminate|]); inversion Hin. }
  assert (Hmessages :
            "messages" ∉ [("temperature", PyFloat (7 # 10)); ("max_tokens", PyInt 1000)].*1).
  { cbn. intros Hin; repeat (apply elem_of_cons in Hin as [Hin|Hin]; [discriminate|]);
      inversion Hin. }
  destruct (request_params_override llm_client.default_config (PyList []) _ "max_tokens"
              Hnodup Hmessages) as [Hm Htokens].
  destruct (request_params_override llm_client.default_config (PyList []) _ "model"
              Hnodup Hmessages) as [_ Hmodel].
  split; [exact Hm|]. split; [rewrite Htokens | rewrite Hmodel]; reflexivity.
Defined.

(** ** The agents on the client as it is configured *)

Section shipped_facts.
Import agent research_agent.
Context {W : Type} `{llm_client.OpenAI W}.

(** X23. With an LLM client that has no usable API key (the default
    configuration), the analysis of a non-empty list of result dictionaries
    does not raise: it returns the fixed summary "Error analyzing search
    results." with one key point and the error message, changes neither the
    agent nor the world, and records the one LLM call it tried. *)
Theorem analysis_without_api_key (cfg : llm_client.LLMConfig) (rest : Collaborators W)
    (m : Machine W) (results : list pyval) (topic : string) :
  llm_client.provider cfg <> "openai" \/ llm_client.openai_api_key cfg = None \/
    llm_client.openai_api_key cfg = Some "" ->
  Forall is_dict results ->
  results <> [] ->
  exists msg messages kwargs,
    @_analyze_results W (llm_client.collaborators (llm_client.init cfg) rest) results topic m =
      (Returned (PyDict [("summary", PyStr "Error analyzing search results.");
                         ("key_points", PyList [PyStr "Analysis failed due to an error."]);
                         ("error", PyStr msg)]),
       {| self := self m;
          env := {| world := world (env m);
                    trace := trace (env m) ++ [LLMGenerate messages kwargs] |} |}).
Proof.
  intros Hbad Hdicts Hne. destruct results as [|r results]; [contradiction|].
  destruct (@format_results_dicts W (llm_client.collaborators (llm_client.init cfg) rest)
              _ Hdicts) as [lines Hlines].
  unfold _analyze_results, _llm_generate, record_event. run_unfold. rewrite Hlines.
  cbn [platform.generate_async llm_client.collaborators world trace env self fst snd].
  match goal with |- context [llm_client.generate_async ?c ?msgs ?kw ?w] =>
    destruct (generate_async_unusable cfg msgs kw w Hbad) as [msg Hgen]; rewrite Hgen end.
  cbn. eexists _, _, _. reflexivity.
Qed.

End shipped_facts.

Lemma analysis_without_api_key_witness :
  exists msg,
    (@research_agent._analyze_results unit
       (@llm_client.collaborators unit fixtures.sample_openai
          (llm_client.init llm_client.default_config) fixtures.quiet)
       fixtures.three_results "agents"
       {| agent.self := fixtures.bare_agent; agent.env := fixtures.empty_env |}).1 =
      Returned (PyDict [("summary", PyStr "Error analyzing search results.");
                        ("key_points", PyList [PyStr "Analysis failed due to an error."]);
                        ("error", PyStr msg)]).
Proof.
  destruct (@analysis_without_api_key unit fixtures.sample_openai llm_client.default_config
              fixtures.quiet
              {| agent.self := fixtures.bare_agent; agent.env := fixtures.empty_env |}
              fixtures.three_results "agents")
    as (msg & messages & kwargs & Hrun).
  - right. left. reflexivity.
  - repeat constructor; eexists; reflexivity.
  - discriminate.
  - exists msg. rewrite Hrun. reflexivity.
Defined.

(** ** HTTP endpoints *)

Section endpoint_facts.
Import base_scraper scrapers.
Context {W : Type}.


(** X25. [GET /scrape/{source}] answers 404 with the message of
    [scrape_single] for a source that is not registered.  For a registered
    source it answers the scraper's articles, and when the scraper raises,
    status 404 if the exception is a [ValueError] and 500 otherwise. *)
Theorem scrape_source_endpoint_status (issubclass : string -> string -> bool)
    (mgr : ScraperManager W) (src : string) (query : option string) (w : W) :
  issubclass "ValueError" "ValueError" = true ->
  (src ∉ (scrapers mgr).*1 ->
   main.scrape_source issubclass mgr src query w =
     (main.HTTPException 404 ("Unknown scraper: " +:+ src), w)) /\
  (forall s,
     NoDup (scrapers mgr).*1 -> (src, s) ∈ scrapers mgr ->
     main.scrape_source issubclass mgr src query w =
       match scrape s query w with
       | (Returned articles, w') => (main.OK articles, w')
       | (Raised e, w') =>
           (main.HTTPException (if issubclass (exc_class e) "ValueError" then 404 else 500)
                               (exc_str e), w')
       end).
Proof.
  intros Hrefl. split.
  - intros Hnot. unfold main.scrape_source, scrape_single.
    rewrite find_source_none by exact Hnot. unfold raise. cbn. rewrite Hrefl. reflexivity.
  - intros s Hnodup Hin. unfold main.scrape_source, scrape_single.
    rewrite (find_source_some _ _ s Hnodup Hin). cbn [snd].
    destruct (scrape s query w) as [[articles|e] w']; [reflexivity|].
    destruct (issubclass (exc_class e) "ValueError"); reflexivity.
Qed.

End endpoint_facts.

Lemma scrape_source_endpoint_status_witness :
  @main.scrape_source unit String.eqb
    {| scrapers.scrapers := [("tech_news", fixtures.working_scraper)] |}
    "blogs" None tt = (main.HTTPException 404 "Unknown scraper: blogs", tt).
Proof.
  apply (proj1 (@scrape_source_endpoint_status unit String.eqb
                  {| scrapers.scrapers := [("tech_news", fixtures.working_scraper)] |}
                  "blogs" None tt eq_refl)).
  cbn. intros Hin. apply elem_of_cons in Hin as [Hin|Hin]; [discriminate | inversion Hin].
Defined.

Section more_samples.
Import tech_news_scraper fixtures.

Lemma process_entry_skips_without_download_witness :
  @_process_entry unit sample_feeds init
    {| link := Some "https://news.example/football";
       entry_title := Some "Cup final tonight";
       entry_summary := Some "Kick-off at eight";
       published_parsed := None; entry_authors := []; source_title := None |} tt =
    (Returned None, tt).
Proof.
  apply (proj2 (@process_entry_skips_without_download unit sample_feeds init _ tt)).
  right. right. vm_compute. reflexivity.
Defined.

Lemma generate_async_needs_key_witness :
  exists msg,
    @llm_client.generate_async unit sample_openai
      (llm_client.init {| llm_client.provider := "openai";
                          llm_client.model := "gpt-4-turbo-preview";
                          llm_client.temperature := 7 # 10;
                          llm_client.max_tokens := 2000;
                          llm_client.openai_api_key := Some "";
                          llm_client.openai_organization := None |})
      (PyList []) [] tt = (Raised (Exc "NotImplementedError" msg), tt).
Proof.
  apply (proj1 (@generate_async_needs_key unit sample_openai _ (PyList []) [] tt)).
  right. right. reflexivity.
Defined.

End more_samples.
